(** * image-generator: error classification, response parsing and transcripts

    A shallow embedding of
      - services/errorHandler.ts  (ErrorType, parseApiError, createApiError,
        getUserFriendlyErrorMessage, isErrorType),
      - services/geminiService.ts (ensureAi, processImageResponse,
        generateImage, editImage),
      - components/ImageStudio.tsx (handleSubmit) and
        components/Chatbot.tsx (handleSendMessage),
    followed by the properties proved about them. *)

From Stdlib Require Import String Ascii List Bool Arith ZArith Lia DecimalString.
From Stdlib Require Import DecimalPos DecimalZ.
Import ListNotations.
Local Open Scope string_scope.

(* ================================================================== *)
(** ** JavaScript values and the string primitives the code calls      *)
(* ================================================================== *)

Module Js.

(** Values that can reach a [catch] clause.  Strings are sequences of
    code units in the ASCII range; numbers are the integers.  An object is
    either an instance of [Error] (with its [name] and [message]) or a plain
    object with the default [toString]; both carry their own enumerable
    properties in insertion order. *)
#[warnings="-register-all"]
Inductive JsValue : Type :=
| JsUndefined
| JsNull
| JsBoolean (b : bool)
| JsNumber (z : Z)
| JsString (s : string)
| JsError (name message : string) (props : list (string * JsValue))
| JsObject (props : list (string * JsValue)).

(** [new Error(message)] *)
Definition newError (message : string) : JsValue := JsError "Error" message [].

(** ToBoolean *)
Definition truthy (v : JsValue) : bool :=
  match v with
  | JsUndefined | JsNull => false
  | JsBoolean b => b
  | JsNumber z => negb (Z.eqb z 0)
  | JsString s => negb (String.eqb s "")
  | JsError _ _ _ | JsObject _ => true
  end.

(** Truthiness of an optional string ([undefined] and the empty string are
    falsy). *)
Definition truthyStr (o : option string) : bool :=
  match o with
  | Some s => negb (String.eqb s "")
  | None => false
  end.

(** The [typeof] operator; [typeof null] is ["object"]. *)
Definition typeof (v : JsValue) : string :=
  match v with
  | JsUndefined => "undefined"
  | JsNull => "object"
  | JsBoolean _ => "boolean"
  | JsNumber _ => "number"
  | JsString _ => "string"
  | JsError _ _ _ | JsObject _ => "object"
  end.

Fixpoint lookup (k : string) (props : list (string * JsValue)) : option JsValue :=
  match props with
  | [] => None
  | (k', v) :: rest => if String.eqb k k' then Some v else lookup k rest
  end.

(** [k in v].  On a primitive the operator raises a TypeError; every use in
    the code is guarded by [typeof v === 'object'], so the value given here
    for primitives is never observed.  Names inherited from
    [Object.prototype] are left out: the code only asks for ['type'] and
    ['userFriendlyMessage']. *)
Definition hasProperty (k : string) (v : JsValue) : bool :=
  match v with
  | JsError _ _ props =>
      String.eqb k "name" || String.eqb k "message"
      || match lookup k props with Some _ => true | None => false end
  | JsObject props =>
      match lookup k props with Some _ => true | None => false end
  | _ => false
  end.

(** [v.k] on an object.  The [name] and [message] of an Error are the ones
    the value is built with; [props] holds its further properties. *)
Definition getProperty (k : string) (v : JsValue) : JsValue :=
  match v with
  | JsError name message props =>
      if String.eqb k "message" then JsString message
      else if String.eqb k "name" then JsString name
      else match lookup k props with
           | Some x => x
           | None => JsUndefined
           end
  | JsObject props =>
      match lookup k props with
      | Some x => x
      | None => JsUndefined
      end
  | _ => JsUndefined
  end.

Definition stringOfZ (z : Z) : string := NilZero.string_of_int (Z.to_int z).

(** [String(v)], also what a template literal applies to its holes. *)
Definition toString (v : JsValue) : string :=
  match v with
  | JsUndefined => "undefined"
  | JsNull => "null"
  | JsBoolean true => "true"
  | JsBoolean false => "false"
  | JsNumber z => stringOfZ z
  | JsString s => s
  | JsError name message _ =>
      if String.eqb name "" then message
      else if String.eqb message "" then name
      else name ++ ": " ++ message
  | JsObject _ => "[object Object]"
  end.

(** A template hole filled with an optional string. *)
Definition hole (o : option string) : string :=
  match o with
  | Some s => s
  | None => "undefined"
  end.

(** [v === s] for a string [s] *)
Definition strictEqString (v : JsValue) (s : string) : bool :=
  match v with
  | JsString s' => String.eqb s' s
  | _ => false
  end.

(** *** String.prototype methods *)

Definition lowerChar (c : ascii) : ascii :=
  let n := nat_of_ascii c in
  if (65 <=? n)%nat && (n <=? 90)%nat then ascii_of_nat (n + 32) else c.

Fixpoint toLowerCase (s : string) : string :=
  match s with
  | EmptyString => EmptyString
  | String c r => String (lowerChar c) (toLowerCase r)
  end.

Fixpoint startsWith (s sub : string) {struct sub} : bool :=
  match sub with
  | EmptyString => true
  | String b sub' =>
      match s with
      | EmptyString => false
      | String a s' => Ascii.eqb a b && startsWith s' sub'
      end
  end.

(** [s.includes(sub)] *)
Fixpoint includes (s sub : string) : bool :=
  startsWith s sub
  || match s with
     | EmptyString => false
     | String _ s' => includes s' sub
     end.

Definition isWhiteSpace (c : ascii) : bool :=
  let n := nat_of_ascii c in
  ((9 <=? n)%nat && (n <=? 13)%nat) || (n =? 32)%nat.

Fixpoint trimStart (s : string) : string :=
  match s with
  | EmptyString => EmptyString
  | String c r => if isWhiteSpace c then trimStart r else s
  end.

Fixpoint trimEnd (s : string) : string :=
  match s with
  | EmptyString => EmptyString
  | String c r =>
      match trimEnd r with
      | EmptyString => if isWhiteSpace c then EmptyString else String c EmptyString
      | r' => String c r'
      end
  end.

(** [s.trim()] *)
Definition trim (s : string) : string := trimEnd (trimStart s).

(** The text of [s] up to its first comma, and what follows that comma. *)
Fixpoint cutAtComma (s : string) : string * option string :=
  match s with
  | EmptyString => (EmptyString, None)
  | String c r =>
      if Ascii.eqb c ","%char then (EmptyString, Some r)
      else let (h, t) := cutAtComma r in (String c h, t)
  end.

(** [s.split(',')[1]] *)
Definition splitComma1 (s : string) : option string :=
  match snd (cutAtComma s) with
  | Some rest => Some (fst (cutAtComma rest))
  | None => None
  end.

(** [s.replace(/\s/g, '_')] *)
Fixpoint replaceWhiteSpace (s : string) : string :=
  match s with
  | EmptyString => EmptyString
  | String c r =>
      String (if isWhiteSpace c then "_"%char else c) (replaceWhiteSpace r)
  end.

(** The double quote, as a one-character string. *)
Definition dq : string := String (ascii_of_nat 34) EmptyString.

End Js.

Import Js.

(* ================================================================== *)
(** ** services/errorHandler.ts                                        *)
(* ================================================================== *)

Module ErrorHandler.

(** Error types for better error categorization *)
Inductive ErrorType : Type :=
| API_KEY_INVALID
| RATE_LIMIT_EXCEEDED
| QUOTA_EXCEEDED
| NETWORK_ERROR
| SERVICE_UNAVAILABLE
| CONTENT_BLOCKED
| UNKNOWN_ERROR
| API_NOT_CONFIGURED.

(** The run-time value of each member of the string enum. *)
Definition ErrorType_value (t : ErrorType) : string :=
  match t with
  | API_KEY_INVALID => "API_KEY_INVALID"
  | RATE_LIMIT_EXCEEDED => "RATE_LIMIT_EXCEEDED"
  | QUOTA_EXCEEDED => "QUOTA_EXCEEDED"
  | NETWORK_ERROR => "NETWORK_ERROR"
  | SERVICE_UNAVAILABLE => "SERVICE_UNAVAILABLE"
  | CONTENT_BLOCKED => "CONTENT_BLOCKED"
  | UNKNOWN_ERROR => "UNKNOWN_ERROR"
  | API_NOT_CONFIGURED => "API_NOT_CONFIGURED"
  end.

(** The object literal [{ type, message, userFriendlyMessage }] (interface
    ApiError). *)
Definition ApiError (type : ErrorType) (message userFriendlyMessage : string)
  : JsValue :=
  JsObject [ ("type", JsString (ErrorType_value type));
             ("message", JsString message);
             ("userFriendlyMessage", JsString userFriendlyMessage) ].

(** [error && typeof error === 'object' && 'type' in error &&
     'userFriendlyMessage' in error] *)
Definition isParsedError (error : JsValue) : bool :=
  truthy error && String.eqb (typeof error) "object"
  && hasProperty "type" error && hasProperty "userFriendlyMessage" error.

(** [error instanceof Error ? error.message : String(error)] *)
Definition errorMessageOf (error : JsValue) : string :=
  match error with
  | JsError _ message _ => message
  | _ => toString error
  end.

(** The keyword tests of parseApiError, one per [if], on the lower-cased
    message. *)
Definition apiKeyTerms (errorString : string) : bool :=
  includes errorString "api key" ||
  includes errorString "invalid api key" ||
  includes errorString "unauthorized" ||
  includes errorString "401" ||
  includes errorString "403" ||
  includes errorString "authentication" ||
  includes errorString "permission denied".

Definition rateLimitTerms (errorString : string) : bool :=
  includes errorString "rate limit" ||
  includes errorString "429" ||
  includes errorString "too many requests" ||
  includes errorString "request rate".

Definition quotaTerms (errorString : string) : bool :=
  includes errorString "quota" ||
  includes errorString "quota exceeded" ||
  includes errorString "billing" ||
  includes errorString "payment" ||
  includes errorString "resource exhausted".

Definition networkTerms (errorString : string) : bool :=
  includes errorString "network" ||
  includes errorString "fetch" ||
  includes errorString "connection" ||
  includes errorString "timeout" ||
  includes errorString "econnrefused" ||
  includes errorString "enotfound".

Definition serviceTerms (errorString : string) : bool :=
  includes errorString "503" ||
  includes errorString "service unavailable" ||
  includes errorString "temporarily unavailable" ||
  includes errorString "maintenance".

Definition blockedTerms (errorString : string) : bool :=
  includes errorString "blocked" ||
  includes errorString "safety" ||
  includes errorString "content policy" ||
  includes errorString "not allowed".

(** Parses API errors and returns user-friendly messages *)
Definition parseApiError (error : JsValue) : JsValue :=
  (* Check if it's already a parsed error *)
  if isParsedError error then error
  else
    let errorMessage := errorMessageOf error in
    let errorString := toLowerCase errorMessage in
    (* Check for API key errors *)
    if apiKeyTerms errorString then
      ApiError API_KEY_INVALID errorMessage
        "API key is invalid or has been revoked. Please check your API_KEY in the .env file and ensure it's correct."
    (* Check for rate limit errors *)
    else if rateLimitTerms errorString then
      ApiError RATE_LIMIT_EXCEEDED errorMessage
        "Rate limit exceeded. Please wait a few moments and try again. Too many requests were made in a short time."
    (* Check for quota exceeded errors *)
    else if quotaTerms errorString then
      ApiError QUOTA_EXCEEDED errorMessage
        "API quota has been exceeded. Your API key has reached its usage limit. Please check your billing and quota limits, or wait until the quota resets."
    (* Check for network errors *)
    else if networkTerms errorString then
      ApiError NETWORK_ERROR errorMessage
        "Network error. Please check your internet connection and try again. If the problem persists, the API service may be temporarily unavailable."
    (* Check for service unavailable *)
    else if serviceTerms errorString then
      ApiError SERVICE_UNAVAILABLE errorMessage
        "Service is temporarily unavailable. The API service is down or under maintenance. Please try again later."
    (* Check for content blocked *)
    else if blockedTerms errorString then
      ApiError CONTENT_BLOCKED errorMessage
        "Request blocked. The content violates the API's safety policies. Please try rephrasing your request."
    (* Default unknown error *)
    else
      ApiError UNKNOWN_ERROR errorMessage
        ("An unexpected error occurred: " ++ errorMessage
           ++ ". Please try again or contact support if the issue persists.").

(** Creates a custom error with user-friendly message *)
Definition createApiError (type : ErrorType) (message userFriendlyMessage : string)
  : JsValue :=
  JsError "Error" message
    [ ("type", JsString (ErrorType_value type));
      ("userFriendlyMessage", JsString userFriendlyMessage) ].

(** Extracts user-friendly error message from an error object.  The declared
    result is a string; on the first path it is whatever the property
    holds. *)
Definition getUserFriendlyErrorMessage (error : JsValue) : JsValue :=
  if truthy error && String.eqb (typeof error) "object"
     && hasProperty "userFriendlyMessage" error
  then getProperty "userFriendlyMessage" error
  else
    let apiError := parseApiError error in
    getProperty "userFriendlyMessage" apiError.

(** Checks if error is a specific error type *)
Definition isErrorType (error : JsValue) (type : ErrorType) : bool :=
  if truthy error && String.eqb (typeof error) "object"
     && hasProperty "type" error
  then strictEqString (getProperty "type" error) (ErrorType_value type)
  else strictEqString (getProperty "type" (parseApiError error)) (ErrorType_value type).

End ErrorHandler.

Import ErrorHandler.

(* ================================================================== *)
(** ** services/geminiService.ts                                       *)
(* ================================================================== *)

Module GeminiService.

(** *** The SDK's types, as far as the code reads or builds them *)

(** [Blob]: the payload of an inline-data part; both fields are optional. *)
Record Blob : Type := { mimeType : option string; data : option string }.

Record Part : Type := { inlineData : option Blob; partText : option string }.

Record Content : Type := { parts : option (list Part) }.

Record Candidate : Type :=
  { content : option Content; finishReason : option string }.

Record PromptFeedback : Type :=
  { blockReason : option string; blockReasonMessage : option string }.

(** Modelled from the spec: the SDK's GenerateContentResponse class is not
    part of the repository; its shape is the response envelope of section 6,
    [{ candidates, promptFeedback, text }], with [text] the accompanying
    text the SDK exposes as a property. *)
Record GenerateContentResponse : Type :=
  { candidates : option (list Candidate);
    promptFeedback : option PromptFeedback;
    text : option string }.

Inductive Modality : Type := IMAGE | TEXT.

Inductive RequestPart : Type :=
| InlineDataPart (inline : Blob)
| TextPart (t : string).

Inductive Contents : Type :=
| ContentsText (prompt : string)
| ContentsParts (ps : list RequestPart).

Record GenerateContentParameters : Type :=
  { model : string; contents : Contents; responseModalities : list Modality }.

(** A browser [File]: its [type] and what [FileReader.readAsDataURL] yields
    for it. *)
Record File : Type := { fileType : string; fileDataURL : string }.

Record GoogleGenAI : Type := { apiKey : string }.

(** A chat session created by [ai.chats.create]. *)
Record Chat : Type := { chatModel : string }.

(** *** Results and effects *)

(** A call either returns or throws a JavaScript value. *)
Inductive Result (A : Type) : Type :=
| Ok (a : A)
| Throw (e : JsValue).
Arguments Ok {A} a.
Arguments Throw {A} e.

(** The requests that leave the browser. *)
Inductive Call : Type :=
| GenerateContent (params : GenerateContentParameters)
| SendMessage (session : Chat) (message : string).

(** The remote service: each request resolves with a response or rejects
    with some value. *)
Definition Remote : Type := Call -> Result GenerateContentResponse.

(** An asynchronous computation: run against the remote service it yields
    the requests it issued, in order, and how it settled. *)
Definition Eff (A : Type) : Type := Remote -> list Call * Result A.

Definition ret {A} (a : A) : Eff A := fun _ => ([], Ok a).

Definition lift {A} (r : Result A) : Eff A := fun _ => ([], r).

Definition bind {A B} (m : Eff A) (f : A -> Eff B) : Eff B :=
  fun remote =>
    match m remote with
    | (t1, Ok a) => let (t2, r) := f a remote in ((t1 ++ t2)%list, r)
    | (t1, Throw e) => (t1, Throw e)
    end.

(** [await] of a request to the service. *)
Definition request (c : Call) : Eff GenerateContentResponse :=
  fun remote => ([c], remote c).

Notation "x <- m ;; k" := (bind m (fun x => k))
  (at level 61, m at next level, right associativity).

(** *** The module *)

(** [const ai = API_KEY ? new GoogleGenAI({ apiKey: API_KEY }) : null] *)
Definition initAi (API_KEY : option string) : option GoogleGenAI :=
  match API_KEY with
  | Some key => if truthyStr API_KEY then Some {| apiKey := key |} else None
  | None => None
  end.

Section Client.

(** The module-level client, [null] when no key was provided. *)
Variable ai : option GoogleGenAI.

(** Checks if the Gemini API key is configured in the environment. *)
Definition isApiKeyConfigured : bool :=
  match ai with
  | Some _ => true
  | None => false
  end.

(** Ensures the GoogleGenAI instance is available before making an API
    call.  Throws a specific error if the API key is not configured. *)
Definition ensureAi : Result GoogleGenAI :=
  match ai with
  | None =>
      Throw (newError
        "Gemini API key not configured. Please set the API_KEY environment variable.")
  | Some aiInstance => Ok aiInstance
  end.

Definition createChat : Result Chat :=
  match ensureAi with
  | Ok _ => Ok {| chatModel := "gemini-2.5-flash" |}
  | Throw e => Throw e
  end.

(** The read is taken to succeed; the promise has no reject path. *)
Definition fileToGenerativePart (file : File) : Eff RequestPart :=
  let base64EncodedData := splitComma1 (fileDataURL file) in
  ret (InlineDataPart {| data := base64EncodedData; mimeType := Some (fileType file) |}).

(** [response.candidates?.[0]] *)
Definition candidate0 (response : GenerateContentResponse) : option Candidate :=
  match candidates response with
  | Some (c :: _) => Some c
  | _ => None
  end.

(** [response.candidates?.[0]?.content?.parts || []] *)
Definition partsOrEmpty (response : GenerateContentResponse) : list Part :=
  match candidate0 response with
  | Some c =>
      match content c with
      | Some ct => match parts ct with Some ps => ps | None => [] end
      | None => []
      end
  | None => []
  end.

(** The [for ... of] loop: the data URI of the first part that has
    [inlineData], if there is one. *)
Fixpoint forParts (ps : list Part) : option string :=
  match ps with
  | [] => None
  | part :: rest =>
      match inlineData part with
      | Some inline =>
          Some ("data:" ++ hole (mimeType inline) ++ ";base64," ++ hole (data inline))
      | None => forParts rest
      end
  end.

(** [response.promptFeedback?.blockReason] *)
Definition blockReasonOf (response : GenerateContentResponse) : option string :=
  match promptFeedback response with
  | Some pf => blockReason pf
  | None => None
  end.

Definition blockReasonMessageOf (response : GenerateContentResponse) : option string :=
  match promptFeedback response with
  | Some pf => blockReasonMessage pf
  | None => None
  end.

(** [response.candidates?.[0]?.finishReason] *)
Definition finishReasonOf (response : GenerateContentResponse) : option string :=
  match candidate0 response with
  | Some c => finishReason c
  | None => None
  end.

Definition processImageResponse (response : GenerateContentResponse)
  : Result string :=
  match forParts (partsOrEmpty response) with
  | Some uri => Ok uri
  | None =>
      if truthyStr (blockReasonOf response) then
        let reason := "Request blocked due to " ++ hole (blockReasonOf response) ++ "." in
        let reason :=
          if truthyStr (blockReasonMessageOf response)
          then reason ++ " " ++ hole (blockReasonMessageOf response)
          else reason in
        Throw (newError reason)
      else
        let finishReason := finishReasonOf response in
        if truthyStr finishReason && negb (String.eqb (hole finishReason) "STOP") then
          if String.eqb (hole finishReason) "NO_IMAGE" then
            let textResponse := text response in
            if truthyStr textResponse then
              Throw (newError
                ("Model provided an explanation instead of an image: "
                   ++ dq ++ trim (hole textResponse) ++ dq))
            else
              Throw (newError
                "The model was unable to generate an image for this prompt. Please try rephrasing your request.")
          else
            Throw (newError
              ("Image generation stopped unexpectedly. Reason: "
                 ++ hole finishReason ++ "."))
        else
          let textResponse := text response in
          if truthyStr textResponse then
            Throw (newError
              ("Model returned a text explanation instead of an image: "
                 ++ dq ++ trim (hole textResponse) ++ dq))
          else
            Throw (newError
              "No image data found in response. The model may have failed to generate an image for the given prompt.")
  end.

Definition generateImage (prompt : string) : Eff string :=
  aiInstance <- lift ensureAi ;;
  response <- request (GenerateContent
                {| model := "gemini-2.5-flash-image";
                   contents := ContentsText prompt;
                   responseModalities := [IMAGE] |}) ;;
  lift (processImageResponse response).

Definition editImage (prompt : string) (image : File) : Eff string :=
  aiInstance <- lift ensureAi ;;
  imagePart <- fileToGenerativePart image ;;
  response <- request (GenerateContent
                {| model := "gemini-2.5-flash-image";
                   contents := ContentsParts [imagePart; TextPart prompt];
                   responseModalities := [IMAGE] |}) ;;
  lift (processImageResponse response).

End Client.

End GeminiService.

Import GeminiService.

(* ================================================================== *)
(** ** types.ts                                                        *)
(* ================================================================== *)

Module Types.

Inductive Role : Type := user | model.

End Types.

(** What a handler reads from the browser: the clock and the object URLs
    handed out, each indexed by the call's position within the handler. *)
Record Browser : Type :=
  { dateNow : nat -> Z;
    createObjectURL : nat -> File -> string }.

(* ================================================================== *)
(** ** components/ImageStudio.tsx                                      *)
(* ================================================================== *)

Module ImageStudio.

Record ImageStudioMessage : Type :=
  { id : string;
    role : Types.Role;
    text : option string;
    imageUrl : option string;
    originalImageUrl : option string }.

(** The component's state hooks. *)
Record State : Type :=
  { messages : list ImageStudioMessage;
    prompt : string;
    imageFile : option File;
    isLoading : bool;
    error : option string;
    isApiReady : bool }.

Definition initialState : State :=
  {| messages := []; prompt := ""; imageFile := None; isLoading := false;
     error := None; isApiReady := true |}.

Section Component.

Variable ai : option GoogleGenAI.
Variable browser : Browser.

(** The effect run once on mount. *)
Definition onMount (s : State) : State :=
  if negb (isApiKeyConfigured ai) then
    {| messages :=
         [ {| id := "api-error"; role := Types.model;
              text := Some "Configuration needed. Please set the API_KEY environment variable to use the Image Studio.";
              imageUrl := None; originalImageUrl := None |} ];
       prompt := prompt s; imageFile := imageFile s; isLoading := isLoading s;
       error := error s; isApiReady := false |}
  else if (List.length (messages s) =? 0)%nat then
    {| messages :=
         [ {| id := "initial"; role := Types.model;
              text := Some "Welcome to the Image Studio! Describe the image you want to create, or upload an image to edit.";
              imageUrl := None; originalImageUrl := None |} ];
       prompt := prompt s; imageFile := imageFile s; isLoading := isLoading s;
       error := error s; isApiReady := isApiReady s |}
  else s.

(** [handleSubmit], run until its promise settles: the requests issued and
    the state the component is left in. *)
Definition handleSubmit (s : State) (remote : Remote) : list Call * State :=
  if negb (truthy (JsString (trim (prompt s)))) || isLoading s || negb (isApiReady s)
  then ([], s)
  else
    let userMessage :=
      {| id := stringOfZ (dateNow browser 0);
         role := Types.user;
         text := Some (prompt s);
         imageUrl := None;
         originalImageUrl := option_map (createObjectURL browser 0) (imageFile s) |} in
    let currentPrompt := prompt s in
    let currentImageFile := imageFile s in
    let messages1 := (messages s ++ [userMessage])%list in
    let attempt :=
      match currentImageFile with
      | Some image => editImage ai currentPrompt image
      | None => generateImage ai currentPrompt
      end in
    match attempt remote with
    | (issued, Ok url) =>
        let modelMessage :=
          {| id := stringOfZ (dateNow browser 1 + 1);
             role := Types.model;
             imageUrl := Some url;
             text := Some ("Here's an image based on your prompt: "
                             ++ dq ++ currentPrompt ++ dq);
             originalImageUrl :=
               option_map (createObjectURL browser 1) currentImageFile |} in
        (issued,
         {| messages := (messages1 ++ [modelMessage])%list;
            prompt := ""; imageFile := None; isLoading := false;
            error := None; isApiReady := isApiReady s |})
    | (issued, Throw err) =>
        let errorMessage :=
          match err with
          | JsError _ message _ => message
          | _ => "An unknown error occurred."
          end in
        let errorModelMessage :=
          {| id := stringOfZ (dateNow browser 1 + 1);
             role := Types.model;
             text := Some ("Sorry, I couldn't generate the image. Error: "
                             ++ errorMessage);
             imageUrl := None;
             originalImageUrl := None |} in
        (issued,
         {| messages := (messages1 ++ [errorModelMessage])%list;
            prompt := ""; imageFile := None; isLoading := false;
            error := Some ("Failed to generate image: " ++ errorMessage);
            isApiReady := isApiReady s |})
    end.

End Component.

(** [onChange] of the prompt input *)
Definition setPrompt (value : string) (s : State) : State :=
  {| messages := messages s; prompt := value; imageFile := imageFile s;
     isLoading := isLoading s; error := error s; isApiReady := isApiReady s |}.

(** [handleFileChange], given [event.target.files] ([None] for [null]). *)
Definition handleFileChange (files : option (list File)) (s : State) : State :=
  match files with
  | Some (file :: _) =>
      {| messages := messages s; prompt := prompt s; imageFile := Some file;
         isLoading := isLoading s; error := error s; isApiReady := isApiReady s |}
  | _ => s
  end.

Definition handleRemoveImage (s : State) : State :=
  {| messages := messages s; prompt := prompt s; imageFile := None;
     isLoading := isLoading s; error := error s; isApiReady := isApiReady s |}.

(** The file name a bubble hands to [downloadImage]:
    [message.text?.replace(/\s/g, '_') || 'generated_image'], then [.png]. *)
Definition downloadFilename (message : ImageStudioMessage) : string :=
  let stem := option_map replaceWhiteSpace (text message) in
  (if truthyStr stem then hole stem else "generated_image") ++ ".png".

(** The request a submission from state [s] stands for: editImage with the
    attached file, generateImage without one. *)
Definition submissionRequest (s : State) : Call :=
  GenerateContent
    {| model := "gemini-2.5-flash-image";
       contents :=
         match imageFile s with
         | Some image =>
             ContentsParts
               [ InlineDataPart {| mimeType := Some (fileType image);
                                   data := splitComma1 (fileDataURL image) |};
                 TextPart (prompt s) ]
         | None => ContentsText (prompt s)
         end;
       responseModalities := [IMAGE] |}.

(** What the user can do to the mounted component. *)
Inductive Event : Type :=
| ChangePrompt (value : string)
| FileChange (files : option (list File))
| RemoveImage
| Submit (browser : Browser) (remote : Remote).

Definition step (ai : option GoogleGenAI) (ev : Event) (s : State)
  : list Call * State :=
  match ev with
  | ChangePrompt value => ([], setPrompt value s)
  | FileChange files => ([], handleFileChange files s)
  | RemoveImage => ([], handleRemoveImage s)
  | Submit browser remote => handleSubmit ai browser s remote
  end.

(** A session: the events one after the other, each handler run to its
    end before the next event; the requests issued are collected in
    order. *)
Fixpoint run (ai : option GoogleGenAI) (evs : list Event) (s : State)
  : list Call * State :=
  match evs with
  | [] => ([], s)
  | ev :: rest =>
      let (issued, s1) := step ai ev s in
      let (later, s2) := run ai rest s1 in
      ((issued ++ later)%list, s2)
  end.

End ImageStudio.

(* ================================================================== *)
(** ** components/Chatbot.tsx                                          *)
(* ================================================================== *)

Module Chatbot.

(** [text] is declared a string; the reply's [response.text] may be
    [undefined]. *)
Record ChatMessage : Type :=
  { role : Types.Role;
    text : option string }.

Record State : Type :=
  { chat : option Chat;
    messages : list ChatMessage;
    currentMessage : string;
    isLoading : bool;
    isApiReady : bool }.

Definition initialState : State :=
  {| chat := None; messages := []; currentMessage := ""; isLoading := false;
     isApiReady := true |}.

(** The failure marker that opens an error bubble (a cross mark, in UTF-8). *)
Definition failureMarker : string := "❌".

Section Component.

Variable ai : option GoogleGenAI.

(** The effect run once on mount. *)
Definition onMount (s : State) : State :=
  if negb (isApiKeyConfigured ai) then
    {| chat := chat s;
       messages :=
         [ {| role := Types.model;
              text := Some "Configuration needed. Please set the API_KEY environment variable to use the chatbot." |} ];
       currentMessage := currentMessage s; isLoading := isLoading s;
       isApiReady := false |}
  else
    match createChat ai with
    | Ok session =>
        {| chat := Some session;
           messages :=
             [ {| role := Types.model;
                  text := Some "Hello! I'm Gemini. How can I help you today?" |} ];
           currentMessage := currentMessage s; isLoading := isLoading s;
           isApiReady := isApiReady s |}
    | Throw error =>
        let friendlyErrorMessage := getUserFriendlyErrorMessage error in
        {| chat := chat s;
           messages :=
             [ {| role := Types.model;
                  text := Some (failureMarker ++ " " ++ toString friendlyErrorMessage) |} ];
           currentMessage := currentMessage s; isLoading := isLoading s;
           isApiReady := false |}
    end.

End Component.

(** [handleSendMessage], run until its promise settles. *)
Definition handleSendMessage (s : State) (remote : Remote) : list Call * State :=
  if negb (truthy (JsString (trim (currentMessage s)))) || isLoading s
     || negb (match chat s with Some _ => true | None => false end)
     || negb (isApiReady s)
  then ([], s)
  else
    match chat s with
    | None => ([], s) (* excluded by the guard above *)
    | Some session =>
        let userMessageText := currentMessage s in
        let userMessage := {| role := Types.user; text := Some userMessageText |} in
        let messages1 := (messages s ++ [userMessage])%list in
        match request (SendMessage session userMessageText) remote with
        | (issued, Ok response) =>
            let modelMessage :=
              {| role := Types.model; text := GeminiService.text response |} in
            (issued,
             {| chat := chat s; messages := (messages1 ++ [modelMessage])%list;
                currentMessage := EmptyString; isLoading := false;
                isApiReady := isApiReady s |})
        | (issued, Throw error) =>
            let friendlyErrorMessage := getUserFriendlyErrorMessage error in
            let errorMessage :=
              {| role := Types.model;
                 text := Some (failureMarker ++ " " ++ toString friendlyErrorMessage) |} in
            (issued,
             {| chat := chat s; messages := (messages1 ++ [errorMessage])%list;
                currentMessage := EmptyString; isLoading := false;
                isApiReady := isApiReady s |})
        end
    end.

(** [onChange] of the message input *)
Definition setCurrentMessage (value : string) (s : State) : State :=
  {| chat := chat s; messages := messages s; currentMessage := value;
     isLoading := isLoading s; isApiReady := isApiReady s |}.

Inductive Event : Type :=
| ChangeMessage (value : string)
| Send (remote : Remote).

Definition step (ev : Event) (s : State) : list Call * State :=
  match ev with
  | ChangeMessage value => ([], setCurrentMessage value s)
  | Send remote => handleSendMessage s remote
  end.

(** A session, as for the studio. *)
Fixpoint run (evs : list Event) (s : State) : list Call * State :=
  match evs with
  | [] => ([], s)
  | ev :: rest =>
      let (issued, s1) := step ev s in
      let (later, s2) := run rest s1 in
      ((issued ++ later)%list, s2)
  end.

End Chatbot.

(* ================================================================== *)
(** ** components/ImageStudio.tsx, the two-panel variant               *)
(* ================================================================== *)

(** The variant of the studio with a controls panel and a result panel
    (no transcript); its component is named ImageStudio as well. *)
Module ImageStudioPanel.

Record State : Type :=
  { prompt : string;
    imageFile : option File;
    imageUrl : option string;
    resultImageUrl : option string;
    isLoading : bool;
    error : option string }.

Definition initialState : State :=
  {| prompt := ""; imageFile := None; imageUrl := None; resultImageUrl := None;
     isLoading := false; error := None |}.

Inductive Action : Type := generate | edit.

(** [handleFileChange], with the read of the file run to its end: the
    preview is the file's data URL and the previous result is cleared. *)
Definition handleFileChange (files : option (list File)) (s : State) : State :=
  match files with
  | Some (file :: _) =>
      {| prompt := prompt s; imageFile := Some file;
         imageUrl := Some (fileDataURL file); resultImageUrl := None;
         isLoading := isLoading s; error := error s |}
  | _ => s
  end.

Section Component.

Variable ai : option GoogleGenAI.

(** [handleAction], run until its promise settles. *)
Definition handleAction (action : Action) (s : State) (remote : Remote)
  : list Call * State :=
  if negb (truthy (JsString (trim (prompt s)))) then
    ([], {| prompt := prompt s; imageFile := imageFile s; imageUrl := imageUrl s;
            resultImageUrl := resultImageUrl s; isLoading := isLoading s;
            error := Some "Please enter a prompt." |})
  else if match action, imageFile s with
          | edit, None => true
          | _, _ => false
          end
  then
    ([], {| prompt := prompt s; imageFile := imageFile s; imageUrl := imageUrl s;
            resultImageUrl := resultImageUrl s; isLoading := isLoading s;
            error := Some "Please upload an image to edit." |})
  else
    let attempt :=
      match action, imageFile s with
      | generate, _ => generateImage ai (prompt s)
      | edit, Some image => editImage ai (prompt s) image
      | edit, None => lift (Throw JsUndefined) (* excluded by the guard above *)
      end in
    match attempt remote with
    | (issued, Ok newImageUrl) =>
        (issued,
         {| prompt := prompt s; imageFile := imageFile s; imageUrl := imageUrl s;
            resultImageUrl := Some newImageUrl; isLoading := false;
            error := None |})
    | (issued, Throw err) =>
        (issued,
         {| prompt := prompt s; imageFile := imageFile s; imageUrl := imageUrl s;
            resultImageUrl := None; isLoading := false;
            error := Some match err with
                          | JsError _ message _ => message
                          | _ => "An unknown error occurred."
                          end |})
    end.

End Component.

End ImageStudioPanel.

(* ================================================================== *)
(** ** Sample inputs                                                   *)
(* ================================================================== *)

Module Samples.

(** A response blocked for safety whose first candidate also stopped with
    NO_IMAGE and which carries text. *)
Definition blockedResponse : GenerateContentResponse :=
  {| candidates := Some [ {| content := None; finishReason := Some "NO_IMAGE" |} ];
     promptFeedback := Some {| blockReason := Some "SAFETY"; blockReasonMessage := None |};
     text := Some "I cannot draw that" |}.

(** A blocked response whose explanation happens to mention payment. *)
Definition blockedPaymentResponse : GenerateContentResponse :=
  {| candidates := None;
     promptFeedback :=
       Some {| blockReason := Some "SAFETY";
               blockReasonMessage := Some "Content about payment fraud is restricted." |};
     text := None |}.

(** A response whose blockReason is there but empty. *)
Definition emptyBlockReasonResponse : GenerateContentResponse :=
  {| candidates := None;
     promptFeedback := Some {| blockReason := Some EmptyString; blockReasonMessage := None |};
     text := None |}.

(** A response that stopped with NO_IMAGE, with the given accompanying
    text. *)
Definition noImageResponse (t : option string) : GenerateContentResponse :=
  {| candidates :=
       Some [ {| content := Some {| parts := Some [] |};
                 finishReason := Some "NO_IMAGE" |} ];
     promptFeedback := None;
     text := t |}.

Definition someKey : option GoogleGenAI := initAi (Some "AIza-sample-key").

Definition someBrowser : Browser :=
  {| dateNow := fun n => (1700000000000 + Z.of_nat n)%Z;
     createObjectURL := fun _ _ => "blob:sample" |}.

(** The studio with the prompt [a cat] typed in and no image attached. *)
Definition studioWithPrompt : ImageStudio.State :=
  {| ImageStudio.messages := [];
     ImageStudio.prompt := "a cat";
     ImageStudio.imageFile := None;
     ImageStudio.isLoading := false;
     ImageStudio.error := None;
     ImageStudio.isApiReady := true |}.

(** A service that rejects every request with a rate-limit error. *)
Definition rateLimited : Remote :=
  fun _ => Throw (newError "429 Too Many Requests").

(** A response that carries a picture, and a service that always answers
    with it. *)
Definition imageResponse : GenerateContentResponse :=
  {| candidates :=
       Some [ {| content :=
                   Some {| parts :=
                             Some [ {| inlineData := Some {| mimeType := Some "image/png";
                                                             data := Some "iVBORw0KGgo=" |};
                                       partText := None |} ] |};
                 finishReason := Some "STOP" |} ];
     promptFeedback := None;
     text := None |}.

Definition imageService : Remote := fun _ => Ok imageResponse.

Definition samplePhoto : File :=
  {| fileType := "image/jpeg"; fileDataURL := "data:image/jpeg;base64,/9j/4AAQ" |}.

End Samples.

(** A prompt is blank when it is empty or made of white space only. *)
Fixpoint isBlank (s : string) : bool :=
  match s with
  | EmptyString => true
  | String c r => isWhiteSpace c && isBlank r
  end.

(** Whether a string holds a white-space character. *)
Fixpoint hasWhiteSpace (s : string) : bool :=
  match s with
  | EmptyString => false
  | String c r => isWhiteSpace c || hasWhiteSpace r
  end.

(* ================================================================== *)
(** ** Facts about the string primitives                               *)
(* ================================================================== *)

Section StringFacts.

Lemma startsWith_app (sub rest : string) : startsWith (sub ++ rest) sub = true.
Proof.
  induction sub as [|c sub IH]; simpl.
  - reflexivity.
  - now rewrite Ascii.eqb_refl, IH.
Qed.

Lemma includes_here (s sub : string) : startsWith s sub = true -> includes s sub = true.
Proof.
  intros H. destruct s; simpl in *; now rewrite H.
Qed.

Lemma includes_later (c : ascii) (s sub : string) :
  includes s sub = true -> includes (String c s) sub = true.
Proof.
  intros H. cbn [includes]. rewrite H. apply orb_true_r.
Qed.

(** [sub] occurs in every string written around it. *)
Lemma includes_app (before sub after : string) :
  includes (before ++ sub ++ after) sub = true.
Proof.
  induction before as [|c before IH]; cbn [append].
  - apply includes_here, startsWith_app.
  - apply includes_later, IH.
Qed.

Lemma includes_append_r (s t sub : string) :
  includes t sub = true -> includes (s ++ t) sub = true.
Proof.
  intros H. induction s as [|c s IH]; cbn [append].
  - exact H.
  - apply includes_later, IH.
Qed.

Lemma toLowerCase_app (s t : string) :
  toLowerCase (s ++ t) = toLowerCase s ++ toLowerCase t.
Proof.
  induction s as [|c s IH]; simpl; [reflexivity | now rewrite IH].
Qed.

Lemma append_assoc (s t u : string) : (s ++ t) ++ u = s ++ t ++ u.
Proof.
  induction s as [|c s IH]; simpl; [reflexivity | now rewrite IH].
Qed.

Lemma append_empty_r (s : string) : s ++ EmptyString = s.
Proof.
  induction s as [|c s IH]; simpl; [reflexivity | now rewrite IH].
Qed.

Lemma eqb_empty_false (s : string) : s <> EmptyString -> String.eqb s EmptyString = false.
Proof.
  destruct s; [congruence | reflexivity].
Qed.

Lemma truthyStr_Some (s : string) : s <> EmptyString -> truthyStr (Some s) = true.
Proof.
  intros H. unfold truthyStr. now rewrite eqb_empty_false.
Qed.

Lemma includes_empty (s : string) : includes s EmptyString = true.
Proof.
  destruct s; reflexivity.
Qed.

Lemma includes_refl (s : string) : includes s s = true.
Proof.
  apply includes_here. rewrite <- (append_empty_r s) at 1. apply startsWith_app.
Qed.

Lemma trim_blank (s : string) : isBlank s = true -> trim s = EmptyString.
Proof.
  unfold trim. induction s as [|c s IH]; simpl.
  - reflexivity.
  - intros H. apply andb_true_iff in H as [Hc Hs]. rewrite Hc. now apply IH.
Qed.

(** Conversely, only a blank string trims to the empty one. *)
Lemma trim_empty_blank (s : string) : trim s = EmptyString -> isBlank s = true.
Proof.
  unfold trim. induction s as [|c s IH]; cbn [trimStart isBlank].
  - reflexivity.
  - destruct (isWhiteSpace c) eqn:Hc; cbn [andb].
    + exact IH.
    + cbn [trimEnd]. rewrite Hc. destruct (trimEnd s); discriminate.
Qed.

End StringFacts.

(* ================================================================== *)
(** ** The error classifier                                            *)
(* ================================================================== *)

Section Classifier.

Lemma newError_not_parsed (message : string) : isParsedError (newError message) = false.
Proof.
  reflexivity.
Qed.

Lemma no_type_not_parsed (v : JsValue) :
  hasProperty "type" v = false -> isParsedError v = false.
Proof.
  intros H. unfold isParsedError. rewrite H.
  now rewrite andb_false_r.
Qed.

Lemma no_message_not_parsed (v : JsValue) :
  (truthy v && String.eqb (typeof v) "object"
   && hasProperty "userFriendlyMessage" v) = false ->
  isParsedError v = false.
Proof.
  unfold isParsedError.
  destruct (truthy v), (String.eqb (typeof v) "object"),
    (hasProperty "type" v), (hasProperty "userFriendlyMessage" v);
    simpl; congruence.
Qed.

(** A value that is not passed through is classified afresh: the result is
    a new ApiError record over the raw message, its type is never
    API_NOT_CONFIGURED, its user-facing message is not empty, and for
    UNKNOWN_ERROR that message is the template around the raw message. *)
Lemma parseApiError_fresh (v : JsValue) :
  isParsedError v = false ->
  exists t u,
    parseApiError v = ApiError t (errorMessageOf v) u
    /\ t <> API_NOT_CONFIGURED
    /\ u <> EmptyString
    /\ (t = UNKNOWN_ERROR ->
        u = "An unexpected error occurred: " ++ errorMessageOf v
              ++ ". Please try again or contact support if the issue persists.").
Proof.
  intros H. unfold parseApiError. rewrite H. cbv zeta.
  repeat match goal with
         | |- context [if ?c then _ else _] => destruct c
         end;
    do 2 eexists;
    (split; [reflexivity | split; [discriminate | split; [ | ]]]);
    try (cbn [append]; discriminate); try reflexivity; discriminate.
Qed.

(** Classifying twice is classifying once. *)
Lemma parseApiError_idempotent (v : JsValue) :
  parseApiError (parseApiError v) = parseApiError v.
Proof.
  destruct (isParsedError v) eqn:H.
  - unfold parseApiError at 2 3. rewrite H.
    unfold parseApiError. now rewrite H.
  - destruct (parseApiError_fresh v H) as (t & u & -> & _).
    reflexivity.
Qed.

End Classifier.

(** C4. Every value that already carries both a [type] field and a
    [userFriendlyMessage] field is returned by parseApiError as it is. *)
Theorem parseApiError_passes_parsed_errors_through (v : JsValue) :
  hasProperty "type" v = true ->
  hasProperty "userFriendlyMessage" v = true ->
  parseApiError v = v.
Proof.
  intros Ht Hu. unfold parseApiError, isParsedError.
  rewrite Ht, Hu. destruct v; simpl in *; try discriminate; reflexivity.
Qed.

Lemma parseApiError_passes_parsed_errors_through_witness :
  let e := createApiError API_NOT_CONFIGURED "no key" "Please configure a key." in
  hasProperty "type" e = true
  /\ hasProperty "userFriendlyMessage" e = true
  /\ parseApiError e = e.
Proof.
  split; [reflexivity | split; [reflexivity | ]].
  apply parseApiError_passes_parsed_errors_through; reflexivity.
Defined.

(** C5. A raw error whose lower-cased message contains one of the auth
    keywords is classified API_KEY_INVALID, whatever else the message
    contains. *)
Theorem auth_keyword_classifies_as_key_invalid (v : JsValue) (kw : string) :
  isParsedError v = false ->
  In kw ["api key"; "unauthorized"; "401"; "403"; "authentication";
         "permission denied"] ->
  includes (toLowerCase (errorMessageOf v)) kw = true ->
  parseApiError v =
    ApiError API_KEY_INVALID (errorMessageOf v)
      "API key is invalid or has been revoked. Please check your API_KEY in the .env file and ensure it's correct.".
Proof.
  intros Hraw Hkw Hinc. unfold parseApiError. rewrite Hraw. cbv zeta.
  assert (Hauth : apiKeyTerms (toLowerCase (errorMessageOf v)) = true).
  { unfold apiKeyTerms. simpl in Hkw.
    destruct Hkw as [<-|[<-|[<-|[<-|[<-|[<-|[]]]]]]];
      rewrite Hinc; rewrite ?orb_true_r; reflexivity. }
  now rewrite Hauth.
Qed.

Lemma auth_keyword_classifies_as_key_invalid_witness :
  let e := newError "Network timeout: 401 Unauthorized while trying to fetch" in
  networkTerms (toLowerCase (errorMessageOf e)) = true
  /\ getProperty "type" (parseApiError e) = JsString "API_KEY_INVALID".
Proof.
  split; [reflexivity | ].
  rewrite (auth_keyword_classifies_as_key_invalid
             (newError "Network timeout: 401 Unauthorized while trying to fetch")
             "401");
    [reflexivity | reflexivity | simpl; tauto | reflexivity].
Defined.

(** C8, as the code has it. A value that parseApiError classifies afresh
    gets a non-empty user-facing message, which for UNKNOWN_ERROR is the
    template around the raw message; and getUserFriendlyErrorMessage returns
    a non-empty string for every value that does not bring a
    [userFriendlyMessage] of its own. *)
Theorem fresh_user_message_is_not_empty (v : JsValue) :
  (isParsedError v = false ->
   exists t u,
     parseApiError v = ApiError t (errorMessageOf v) u
     /\ getProperty "userFriendlyMessage" (parseApiError v) = JsString u
     /\ u <> EmptyString
     /\ (t = UNKNOWN_ERROR ->
         u = "An unexpected error occurred: " ++ errorMessageOf v
               ++ ". Please try again or contact support if the issue persists."))
  /\
  ((truthy v && String.eqb (typeof v) "object"
    && hasProperty "userFriendlyMessage" v) = false ->
   exists u, getUserFriendlyErrorMessage v = JsString u /\ u <> EmptyString).
Proof.
  split.
  - intros Hraw.
    destruct (parseApiError_fresh v Hraw) as (t & u & Heq & _ & Hne & Hunk).
    exists t, u. rewrite Heq. repeat split; assumption.
  - intros Hnone. unfold getUserFriendlyErrorMessage. rewrite Hnone.
    destruct (parseApiError_fresh v (no_message_not_parsed v Hnone))
      as (t & u & Heq & _ & Hne & _).
    exists u. rewrite Heq. split; [reflexivity | assumption].
Qed.

Lemma fresh_user_message_is_not_empty_witness :
  let e := JsString "something odd happened" in
  isParsedError e = false
  /\ (truthy e && String.eqb (typeof e) "object"
      && hasProperty "userFriendlyMessage" e) = false
  /\ getUserFriendlyErrorMessage e =
       JsString "An unexpected error occurred: something odd happened. Please try again or contact support if the issue persists."
  /\ exists u, getUserFriendlyErrorMessage e = JsString u /\ u <> EmptyString.
Proof.
  split; [reflexivity | split; [reflexivity | split; [reflexivity | ]]].
  apply (proj2 (fresh_user_message_is_not_empty
                  (JsString "something odd happened"))).
  reflexivity.
Defined.

(** C8 as stated fails: an error built by createApiError with an empty
    user-friendly message is passed through, and both functions hand the
    empty string back. *)
Lemma passed_through_user_message_can_be_empty :
  let e := createApiError UNKNOWN_ERROR "boom" EmptyString in
  getProperty "userFriendlyMessage" (parseApiError e) = JsString EmptyString
  /\ getUserFriendlyErrorMessage e = JsString EmptyString.
Proof.
  split; reflexivity.
Qed.

(** C10. A value without a [type] field is classified afresh, and the
    category of a fresh classification is never API_NOT_CONFIGURED. *)
Theorem fresh_classification_is_never_not_configured (v : JsValue) :
  hasProperty "type" v = false ->
  exists t u,
    parseApiError v = ApiError t (errorMessageOf v) u
    /\ t <> API_NOT_CONFIGURED
    /\ getProperty "type" (parseApiError v) = JsString (ErrorType_value t)
    /\ isErrorType v API_NOT_CONFIGURED = false.
Proof.
  intros Hno.
  destruct (parseApiError_fresh v (no_type_not_parsed v Hno))
    as (t & u & Heq & Ht & _ & _).
  exists t, u. unfold isErrorType. rewrite Hno, andb_false_r, Heq.
  repeat split; try assumption.
  destruct t; try reflexivity. now elim Ht.
Qed.

Lemma fresh_classification_is_never_not_configured_witness :
  let e := newError "Gemini API key not configured. Please set the API_KEY environment variable." in
  hasProperty "type" e = false
  /\ exists t u,
       parseApiError e = ApiError t (errorMessageOf e) u
       /\ t <> API_NOT_CONFIGURED
       /\ getProperty "type" (parseApiError e) = JsString (ErrorType_value t)
       /\ isErrorType e API_NOT_CONFIGURED = false.
Proof.
  split; [reflexivity | ].
  apply fresh_classification_is_never_not_configured. reflexivity.
Defined.

(* ================================================================== *)
(** ** The generation client                                           *)
(* ================================================================== *)

(** C1, as the code has it. Without a configured key generateImage and
    editImage fail in ensureAi: no request is issued, and what is thrown is
    the plain Error of ensureAi. *)
Theorem no_key_fails_before_any_request
  (ai : option GoogleGenAI) (prompt : string) (image : File) (remote : Remote) :
  isApiKeyConfigured ai = false ->
  generateImage ai prompt remote =
    ([], Throw (newError
       "Gemini API key not configured. Please set the API_KEY environment variable."))
  /\ editImage ai prompt image remote =
    ([], Throw (newError
       "Gemini API key not configured. Please set the API_KEY environment variable.")).
Proof.
  intros Hno. destruct ai as [client|]; [discriminate | ].
  split; reflexivity.
Qed.

Lemma no_key_fails_before_any_request_witness :
  let image := {| fileType := "image/png"; fileDataURL := "data:image/png;base64,AAAA" |} in
  let remote := fun _ : Call => Ok {| candidates := None; promptFeedback := None; text := None |} in
  isApiKeyConfigured (initAi None) = false
  /\ fst (generateImage (initAi None) "a cat" remote) = []
  /\ fst (editImage (initAi None) "a hat on it" image remote) = [].
Proof.
  split; [reflexivity | ].
  destruct (no_key_fails_before_any_request (initAi None) "a cat"
              {| fileType := "image/png"; fileDataURL := "data:image/png;base64,AAAA" |}
              (fun _ : Call => Ok {| candidates := None; promptFeedback := None; text := None |})
              eq_refl) as [Hg _].
  destruct (no_key_fails_before_any_request (initAi None) "a hat on it"
              {| fileType := "image/png"; fileDataURL := "data:image/png;base64,AAAA" |}
              (fun _ : Call => Ok {| candidates := None; promptFeedback := None; text := None |})
              eq_refl) as [_ He].
  split; [now rewrite Hg | now rewrite He].
Defined.

(** C1 as stated fails: the error thrown without a key is not classified
    API_NOT_CONFIGURED. Its message contains [api key], so parseApiError
    files it under API_KEY_INVALID. *)
Lemma missing_key_error_is_classified_key_invalid :
  exists e,
    generateImage None "a cat" (fun _ => Throw JsUndefined) = ([], Throw e)
    /\ getProperty "type" (parseApiError e) = JsString (ErrorType_value API_KEY_INVALID)
    /\ isErrorType e API_NOT_CONFIGURED = false
    /\ isErrorType (parseApiError e) API_NOT_CONFIGURED = false.
Proof.
  eexists. split; [reflexivity | ]. repeat split; reflexivity.
Qed.

(* ================================================================== *)
(** ** The response parser                                             *)
(* ================================================================== *)

Section Parser.

Lemma forParts_none (ps : list Part) :
  (forall p, In p ps -> inlineData p = None) -> forParts ps = None.
Proof.
  induction ps as [|p ps IH]; intros H; simpl.
  - reflexivity.
  - rewrite (H p (or_introl eq_refl)). apply IH.
    intros q Hq. apply H. now right.
Qed.

Lemma forParts_first (before after : list Part) (part : Part) (inline : Blob) :
  (forall p, In p before -> inlineData p = None) ->
  inlineData part = Some inline ->
  forParts (before ++ part :: after) =
    Some ("data:" ++ hole (mimeType inline) ++ ";base64," ++ hole (data inline)).
Proof.
  intros Hbefore Hpart. induction before as [|p before IH]; simpl.
  - now rewrite Hpart.
  - rewrite (Hbefore p (or_introl eq_refl)). apply IH.
    intros q Hq. apply Hbefore. now right.
Qed.

(** Cases of the cascade, each under the condition that selects it. *)
Lemma processImageResponse_blocked (response : GenerateContentResponse) :
  forParts (partsOrEmpty response) = None ->
  truthyStr (blockReasonOf response) = true ->
  processImageResponse response =
    Throw (newError
      (if truthyStr (blockReasonMessageOf response)
       then ("Request blocked due to " ++ hole (blockReasonOf response) ++ ".")
              ++ " " ++ hole (blockReasonMessageOf response)
       else "Request blocked due to " ++ hole (blockReasonOf response) ++ ".")).
Proof.
  intros Hnone Hblock. unfold processImageResponse.
  rewrite Hnone, Hblock. now destruct (truthyStr (blockReasonMessageOf response)).
Qed.

Lemma processImageResponse_no_image (response : GenerateContentResponse) :
  forParts (partsOrEmpty response) = None ->
  truthyStr (blockReasonOf response) = false ->
  finishReasonOf response = Some "NO_IMAGE" ->
  processImageResponse response =
    Throw (newError
      (if truthyStr (text response)
       then "Model provided an explanation instead of an image: "
              ++ dq ++ trim (hole (text response)) ++ dq
       else "The model was unable to generate an image for this prompt. Please try rephrasing your request.")).
Proof.
  intros Hnone Hblock Hfinish. unfold processImageResponse.
  rewrite Hnone, Hblock, Hfinish. cbn.
  now destruct (truthyStr (text response)).
Qed.

(** A message that matches no keyword of the six lists is UNKNOWN_ERROR. *)
Lemma parseApiError_unknown (message : string) :
  apiKeyTerms (toLowerCase message) = false ->
  rateLimitTerms (toLowerCase message) = false ->
  quotaTerms (toLowerCase message) = false ->
  networkTerms (toLowerCase message) = false ->
  serviceTerms (toLowerCase message) = false ->
  blockedTerms (toLowerCase message) = false ->
  parseApiError (newError message) =
    ApiError UNKNOWN_ERROR message
      ("An unexpected error occurred: " ++ message
         ++ ". Please try again or contact support if the issue persists.").
Proof.
  intros H1 H2 H3 H4 H5 H6. unfold parseApiError.
  rewrite newError_not_parsed. cbn [errorMessageOf newError]. cbv zeta.
  now rewrite H1, H2, H3, H4, H5, H6.
Qed.

(** A message that contains [blocked] and no keyword of the five lists
    tested before is CONTENT_BLOCKED. *)
Lemma parseApiError_blocked (message : string) :
  apiKeyTerms (toLowerCase message) = false ->
  rateLimitTerms (toLowerCase message) = false ->
  quotaTerms (toLowerCase message) = false ->
  networkTerms (toLowerCase message) = false ->
  serviceTerms (toLowerCase message) = false ->
  includes (toLowerCase message) "blocked" = true ->
  parseApiError (newError message) =
    ApiError CONTENT_BLOCKED message
      "Request blocked. The content violates the API's safety policies. Please try rephrasing your request.".
Proof.
  intros H1 H2 H3 H4 H5 H6. unfold parseApiError.
  rewrite newError_not_parsed. cbn [errorMessageOf newError]. cbv zeta.
  rewrite H1, H2, H3, H4, H5. unfold blockedTerms. now rewrite H6.
Qed.

Lemma blocked_prefix_includes (rest : string) :
  includes (toLowerCase ("Request blocked due to " ++ rest)) "blocked" = true.
Proof.
  rewrite toLowerCase_app.
  change (toLowerCase "Request blocked due to ")
    with ("request " ++ "blocked" ++ " due to ").
  rewrite !append_assoc. apply includes_app.
Qed.

End Parser.

(** C2, as the code has it. When the first candidate's content has an
    inline-data part, the parser returns the data URI of the first such
    part, whatever promptFeedback, finishReason and text hold. *)
Theorem first_candidate_inline_data_gives_data_uri
  (response : GenerateContentResponse) (c : Candidate) (cs : list Candidate)
  (ct : Content) (before after : list Part) (part : Part) (m d : string) :
  candidates response = Some (c :: cs) ->
  content c = Some ct ->
  parts ct = Some (before ++ part :: after)%list ->
  (forall p, In p before -> inlineData p = None) ->
  inlineData part = Some {| mimeType := Some m; data := Some d |} ->
  processImageResponse response = Ok ("data:" ++ m ++ ";base64," ++ d).
Proof.
  intros Hcs Hct Hps Hbefore Hpart.
  unfold processImageResponse, partsOrEmpty, candidate0.
  rewrite Hcs, Hct, Hps.
  now rewrite (forParts_first before after part _ Hbefore Hpart).
Qed.

Lemma first_candidate_inline_data_gives_data_uri_witness :
  processImageResponse
    {| candidates :=
         Some [ {| content :=
                     Some {| parts :=
                               Some [ {| inlineData := None; partText := Some "Here you go" |};
                                      {| inlineData := Some {| mimeType := Some "image/png";
                                                               data := Some "iVBORw0KGgo=" |};
                                         partText := None |} ] |};
                   finishReason := Some "SAFETY" |} ];
       promptFeedback := Some {| blockReason := Some "OTHER"; blockReasonMessage := None |};
       text := Some "Here you go" |}
  = Ok "data:image/png;base64,iVBORw0KGgo=".
Proof.
  apply (first_candidate_inline_data_gives_data_uri
           {| candidates :=
                Some [ {| content :=
                            Some {| parts :=
                                      Some [ {| inlineData := None; partText := Some "Here you go" |};
                                             {| inlineData := Some {| mimeType := Some "image/png";
                                                                      data := Some "iVBORw0KGgo=" |};
                                                partText := None |} ] |};
                          finishReason := Some "SAFETY" |} ];
              promptFeedback := Some {| blockReason := Some "OTHER"; blockReasonMessage := None |};
              text := Some "Here you go" |}
           {| content :=
                Some {| parts :=
                          Some [ {| inlineData := None; partText := Some "Here you go" |};
                                 {| inlineData := Some {| mimeType := Some "image/png";
                                                          data := Some "iVBORw0KGgo=" |};
                                    partText := None |} ] |};
              finishReason := Some "SAFETY" |}
           []
           {| parts :=
                Some [ {| inlineData := None; partText := Some "Here you go" |};
                       {| inlineData := Some {| mimeType := Some "image/png";
                                                data := Some "iVBORw0KGgo=" |};
                          partText := None |} ] |}
           [ {| inlineData := None; partText := Some "Here you go" |} ] []
           {| inlineData := Some {| mimeType := Some "image/png";
                                    data := Some "iVBORw0KGgo=" |};
              partText := None |}
           "image/png" "iVBORw0KGgo=");
    try reflexivity.
  intros p [<-|[]]. reflexivity.
Defined.

(** C2 as stated fails: an inline-data part held by a later candidate is
    not looked at. *)
Lemma inline_data_in_second_candidate_is_ignored :
  let image := {| inlineData := Some {| mimeType := Some "image/png"; data := Some "AAAA" |};
                  partText := None |} in
  let response :=
    {| candidates :=
         Some [ {| content := Some {| parts := Some [] |}; finishReason := None |};
                {| content := Some {| parts := Some [image] |}; finishReason := None |} ];
       promptFeedback := None;
       text := None |} in
  processImageResponse response =
    Throw (newError
      "No image data found in response. The model may have failed to generate an image for the given prompt.").
Proof.
  reflexivity.
Qed.

(** C6, as the code has it. With no inline-data part in the first candidate
    and a non-empty blockReason, the parser throws an Error whose message
    names the block reason, followed by blockReasonMessage when there is
    one, whatever finishReason and text hold. That error is classified
    CONTENT_BLOCKED when its message matches no keyword of the five lists
    parseApiError tests first. *)
Theorem block_reason_raises_blocked_message
  (response : GenerateContentResponse) (r : string) :
  (forall p, In p (partsOrEmpty response) -> inlineData p = None) ->
  blockReasonOf response = Some r ->
  r <> EmptyString ->
  exists reason,
    processImageResponse response = Throw (newError reason)
    /\ reason = ("Request blocked due to " ++ r ++ ".")
                  ++ match blockReasonMessageOf response with
                     | Some m => if String.eqb m EmptyString then EmptyString else " " ++ m
                     | None => EmptyString
                     end
    /\ includes reason r = true
    /\ (forall m, blockReasonMessageOf response = Some m -> includes reason m = true)
    /\ (apiKeyTerms (toLowerCase reason) = false ->
        rateLimitTerms (toLowerCase reason) = false ->
        quotaTerms (toLowerCase reason) = false ->
        networkTerms (toLowerCase reason) = false ->
        serviceTerms (toLowerCase reason) = false ->
        parseApiError (newError reason) =
          ApiError CONTENT_BLOCKED reason
            "Request blocked. The content violates the API's safety policies. Please try rephrasing your request.").
Proof.
  intros Hnone Hr Hne.
  rewrite (processImageResponse_blocked response (forParts_none _ Hnone))
    by (rewrite Hr; now apply truthyStr_Some).
  rewrite Hr. cbn [hole].
  eexists. split; [reflexivity | ].
  split.
  { destruct (blockReasonMessageOf response) as [m|]; cbn [truthyStr hole].
    - destruct (String.eqb m EmptyString); cbn [negb]; [ | reflexivity].
      now rewrite append_empty_r.
    - now rewrite append_empty_r. }
  split.
  { destruct (truthyStr (blockReasonMessageOf response));
      rewrite ?append_assoc; apply includes_app. }
  split.
  { intros m Hm. rewrite Hm. cbn [truthyStr hole].
    destruct m as [|a m]; cbn [String.eqb negb].
    - apply includes_empty.
    - do 2 apply includes_append_r. apply includes_refl. }
  intros H1 H2 H3 H4 H5.
  apply parseApiError_blocked; try assumption.
  destruct (truthyStr (blockReasonMessageOf response));
    rewrite ?append_assoc; apply blocked_prefix_includes.
Qed.

Lemma block_reason_raises_blocked_message_witness :
  blockReasonOf Samples.blockedResponse = Some "SAFETY"
  /\ finishReasonOf Samples.blockedResponse = Some "NO_IMAGE"
  /\ exists reason,
       processImageResponse Samples.blockedResponse = Throw (newError reason)
       /\ includes reason "SAFETY" = true
       /\ parseApiError (newError reason) =
            ApiError CONTENT_BLOCKED reason
              "Request blocked. The content violates the API's safety policies. Please try rephrasing your request.".
Proof.
  split; [reflexivity | split; [reflexivity | ]].
  assert (Hnone : forall p, In p (partsOrEmpty Samples.blockedResponse) ->
                            inlineData p = None) by (intros p []).
  assert (Hne : "SAFETY" <> EmptyString) by discriminate.
  destruct (block_reason_raises_blocked_message Samples.blockedResponse "SAFETY"
              Hnone eq_refl Hne)
    as (reason & Hthrow & Hreason & Hmentions & _ & Hclass).
  exists reason. split; [exact Hthrow | split; [exact Hmentions | ]].
  apply Hclass; rewrite Hreason; reflexivity.
Defined.

(** C6 as stated fails: the blocked error is classified by its text, and a
    keyword of an earlier list in the explanation wins over [blocked].
    Besides, the test on blockReason is one of truthiness: an empty
    blockReason is passed over and the cascade goes on. *)
Lemma blocked_error_can_be_classified_as_quota :
  (exists e,
     processImageResponse Samples.blockedPaymentResponse = Throw e
     /\ getProperty "type" (parseApiError e) = JsString (ErrorType_value QUOTA_EXCEEDED)
     /\ isErrorType e CONTENT_BLOCKED = false)
  /\
  (blockReasonOf Samples.emptyBlockReasonResponse = Some EmptyString
   /\ processImageResponse Samples.emptyBlockReasonResponse =
        Throw (newError
          "No image data found in response. The model may have failed to generate an image for the given prompt.")).
Proof.
  split.
  - eexists. split; [reflexivity | split; reflexivity].
  - split; reflexivity.
Qed.

(** C7, as the code has it. With no inline-data part in the first
    candidate, no block reason and finish reason NO_IMAGE: when text is
    present the parser throws an Error that quotes the text with the white
    space around it removed, classified UNKNOWN_ERROR when the message
    matches no keyword of the classifier; without text it throws the generic
    message, which is classified UNKNOWN_ERROR. *)
Theorem no_image_raises_explanation_or_generic_message
  (response : GenerateContentResponse) :
  (forall p, In p (partsOrEmpty response) -> inlineData p = None) ->
  truthyStr (blockReasonOf response) = false ->
  finishReasonOf response = Some "NO_IMAGE" ->
  (forall t, text response = Some t -> t <> EmptyString ->
     let message := "Model provided an explanation instead of an image: "
                      ++ dq ++ trim t ++ dq in
     processImageResponse response = Throw (newError message)
     /\ includes message (dq ++ trim t ++ dq) = true
     /\ (apiKeyTerms (toLowerCase message) = false ->
         rateLimitTerms (toLowerCase message) = false ->
         quotaTerms (toLowerCase message) = false ->
         networkTerms (toLowerCase message) = false ->
         serviceTerms (toLowerCase message) = false ->
         blockedTerms (toLowerCase message) = false ->
         parseApiError (newError message) =
           ApiError UNKNOWN_ERROR message
             ("An unexpected error occurred: " ++ message
                ++ ". Please try again or contact support if the issue persists.")))
  /\
  (truthyStr (text response) = false ->
     let message := "The model was unable to generate an image for this prompt. Please try rephrasing your request." in
     processImageResponse response = Throw (newError message)
     /\ parseApiError (newError message) =
          ApiError UNKNOWN_ERROR message
            ("An unexpected error occurred: " ++ message
               ++ ". Please try again or contact support if the issue persists.")).
Proof.
  intros Hnone Hblock Hfinish.
  pose proof (processImageResponse_no_image response
                (forParts_none _ Hnone) Hblock Hfinish) as Hthrow.
  split.
  - intros t Ht Hne message. rewrite Ht in Hthrow. cbn [hole] in Hthrow.
    rewrite (truthyStr_Some t Hne) in Hthrow.
    split; [exact Hthrow | ]. split.
    + subst message. apply includes_append_r, includes_refl.
    + apply parseApiError_unknown.
  - intros Hno message. rewrite Hno in Hthrow.
    split; [exact Hthrow | reflexivity].
Qed.

Lemma no_image_raises_explanation_or_generic_message_witness :
  let message := "Model provided an explanation instead of an image: "
                   ++ dq ++ "I cannot draw that" ++ dq in
  finishReasonOf (Samples.noImageResponse (Some "I cannot draw that")) = Some "NO_IMAGE"
  /\ processImageResponse (Samples.noImageResponse (Some "I cannot draw that"))
       = Throw (newError message)
  /\ getProperty "type" (parseApiError (newError message))
       = JsString (ErrorType_value UNKNOWN_ERROR).
Proof.
  cbv zeta. split; [reflexivity | ].
  assert (Hnone : forall p,
             In p (partsOrEmpty (Samples.noImageResponse (Some "I cannot draw that"))) ->
             inlineData p = None) by (intros p []).
  assert (Hne : "I cannot draw that" <> EmptyString) by discriminate.
  destruct (no_image_raises_explanation_or_generic_message
              (Samples.noImageResponse (Some "I cannot draw that"))
              Hnone eq_refl eq_refl) as [Htext _].
  destruct (Htext "I cannot draw that" eq_refl Hne) as (Hthrow & _ & Hclass).
  split; [exact Hthrow | ].
  cbv zeta in Hclass. change (trim "I cannot draw that") with "I cannot draw that" in Hclass.
  rewrite Hclass by reflexivity. reflexivity.
Defined.

(** C7 as stated fails on two counts: the quoted text is trimmed, not
    verbatim; and the error is classified by its text, so an explanation
    that contains a keyword leaves the unknown category. *)
Lemma no_image_text_is_trimmed_and_classified_by_keyword :
  (exists message,
     processImageResponse (Samples.noImageResponse (Some "  I cannot draw that  "))
       = Throw (newError message)
     /\ message = "Model provided an explanation instead of an image: "
                    ++ dq ++ "I cannot draw that" ++ dq
     /\ includes message "  I cannot draw that  " = false)
  /\
  (exists e,
     processImageResponse
       (Samples.noImageResponse (Some "Drawing this is not allowed by my safety rules"))
       = Throw e
     /\ getProperty "type" (parseApiError e) = JsString (ErrorType_value CONTENT_BLOCKED)
     /\ isErrorType e UNKNOWN_ERROR = false).
Proof.
  split.
  - eexists. split; [reflexivity | split; reflexivity].
  - eexists. split; [reflexivity | split; reflexivity].
Qed.

(* ================================================================== *)
(** ** The two conversations                                           *)
(* ================================================================== *)

(** In the chat a failed request ends in one more bubble, whose text is the
    failure marker followed by what getUserFriendlyErrorMessage returns for
    the value caught. *)
Lemma chat_failure_appends_classified_message
  (s : Chatbot.State) (session : Chat) (remote : Remote) (e : JsValue) :
  Chatbot.chat s = Some session ->
  trim (Chatbot.currentMessage s) <> EmptyString ->
  Chatbot.isLoading s = false ->
  Chatbot.isApiReady s = true ->
  remote (SendMessage session (Chatbot.currentMessage s)) = Throw e ->
  Chatbot.handleSendMessage s remote =
    ([SendMessage session (Chatbot.currentMessage s)],
     {| Chatbot.chat := Some session;
        Chatbot.messages :=
          (Chatbot.messages s
             ++ [ {| Chatbot.role := Types.user;
                     Chatbot.text := Some (Chatbot.currentMessage s) |};
                  {| Chatbot.role := Types.model;
                     Chatbot.text :=
                       Some (Chatbot.failureMarker ++ " "
                               ++ toString (getUserFriendlyErrorMessage e))%string |} ])%list;
        Chatbot.currentMessage := EmptyString;
        Chatbot.isLoading := false;
        Chatbot.isApiReady := true |}).
Proof.
  intros Hchat Htrim Hload Hready Hremote.
  unfold Chatbot.handleSendMessage, request.
  rewrite Hchat, Hload, Hready, Hremote.
  cbn [truthy]. rewrite (eqb_empty_false _ Htrim). cbn [negb orb].
  now rewrite <- app_assoc.
Qed.

Lemma chat_failure_appends_classified_message_witness :
  snd (Chatbot.handleSendMessage
         {| Chatbot.chat := Some {| chatModel := "gemini-2.5-flash" |};
            Chatbot.messages := []; Chatbot.currentMessage := "hello";
            Chatbot.isLoading := false; Chatbot.isApiReady := true |}
         Samples.rateLimited)
  = {| Chatbot.chat := Some {| chatModel := "gemini-2.5-flash" |};
       Chatbot.messages :=
         [ {| Chatbot.role := Types.user; Chatbot.text := Some "hello" |};
           {| Chatbot.role := Types.model;
              Chatbot.text :=
                Some (Chatbot.failureMarker
                        ++ " Rate limit exceeded. Please wait a few moments and try again. Too many requests were made in a short time.") |} ];
       Chatbot.currentMessage := EmptyString;
       Chatbot.isLoading := false;
       Chatbot.isApiReady := true |}.
Proof.
  rewrite (chat_failure_appends_classified_message
             {| Chatbot.chat := Some {| chatModel := "gemini-2.5-flash" |};
                Chatbot.messages := []; Chatbot.currentMessage := "hello";
                Chatbot.isLoading := false; Chatbot.isApiReady := true |}
             {| chatModel := "gemini-2.5-flash" |}
             Samples.rateLimited
             (newError "429 Too Many Requests"));
    try reflexivity.
  discriminate.
Defined.

(** In the studio a failed generation ends in one more bubble, whose text
    carries the message of the Error caught, as it is. *)
Lemma studio_failure_appends_raw_message
  (client : GoogleGenAI) (browser : Browser) (s : ImageStudio.State)
  (remote : Remote) (name message : string) (props : list (string * JsValue)) :
  trim (ImageStudio.prompt s) <> EmptyString ->
  ImageStudio.isLoading s = false ->
  ImageStudio.isApiReady s = true ->
  ImageStudio.imageFile s = None ->
  remote (GenerateContent
            {| model := "gemini-2.5-flash-image";
               contents := ContentsText (ImageStudio.prompt s);
               responseModalities := [IMAGE] |})
    = Throw (JsError name message props) ->
  map ImageStudio.text
      (ImageStudio.messages (snd (ImageStudio.handleSubmit (Some client) browser s remote)))
  = (map ImageStudio.text (ImageStudio.messages s)
       ++ [ Some (ImageStudio.prompt s);
            Some ("Sorry, I couldn't generate the image. Error: " ++ message)%string ])%list.
Proof.
  intros Htrim Hload Hready Hfile Hremote.
  unfold ImageStudio.handleSubmit.
  rewrite Hload, Hready, Hfile. cbn [truthy].
  rewrite (eqb_empty_false _ Htrim). cbn [negb orb].
  unfold generateImage, bind, lift, request. cbn [ensureAi].
  rewrite Hremote. cbn [snd ImageStudio.messages].
  rewrite <- app_assoc, map_app. reflexivity.
Qed.

(** Without a key the studio closes its gate on mount, and a submission
    then issues no request. *)
Lemma studio_without_key_issues_no_request
  (browser : Browser) (s : ImageStudio.State) (remote : Remote) :
  ImageStudio.handleSubmit None browser (ImageStudio.onMount None s) remote
  = ([], ImageStudio.onMount None s).
Proof.
  unfold ImageStudio.handleSubmit. cbn [ImageStudio.onMount isApiKeyConfigured negb].
  cbn [ImageStudio.isApiReady negb]. now rewrite !orb_true_r.
Qed.

(** C3 fails in the studio. A request rejected with a rate-limit error
    leaves the raw message of that error in the transcript and in the error
    line; the text the classifier has for it is another one, and appears
    nowhere. *)
Theorem studio_failure_shows_unclassified_message :
  let outcome :=
    ImageStudio.handleSubmit Samples.someKey Samples.someBrowser
      Samples.studioWithPrompt Samples.rateLimited in
  map ImageStudio.text (ImageStudio.messages (snd outcome)) =
    [ Some "a cat";
      Some "Sorry, I couldn't generate the image. Error: 429 Too Many Requests" ]
  /\ ImageStudio.error (snd outcome) =
       Some "Failed to generate image: 429 Too Many Requests"
  /\ getUserFriendlyErrorMessage (newError "429 Too Many Requests") =
       JsString "Rate limit exceeded. Please wait a few moments and try again. Too many requests were made in a short time.".
Proof.
  cbv zeta. split; [reflexivity | split; reflexivity].
Qed.

(** C9. Submitting a blank prompt, in the studio or in the chat, issues no
    request and leaves the whole state, the transcript included, as it
    was. *)
Theorem blank_prompt_is_ignored (p : string) :
  isBlank p = true ->
  (forall ai browser s remote,
      ImageStudio.prompt s = p ->
      ImageStudio.handleSubmit ai browser s remote = ([], s))
  /\
  (forall s remote,
      Chatbot.currentMessage s = p ->
      Chatbot.handleSendMessage s remote = ([], s)).
Proof.
  intros Hblank. split.
  - intros ai browser s remote Hp. unfold ImageStudio.handleSubmit.
    rewrite Hp, (trim_blank p Hblank). reflexivity.
  - intros s remote Hp. unfold Chatbot.handleSendMessage.
    rewrite Hp, (trim_blank p Hblank). reflexivity.
Qed.

Lemma blank_prompt_is_ignored_witness :
  let studio :=
    {| ImageStudio.messages := []; ImageStudio.prompt := "   ";
       ImageStudio.imageFile := None; ImageStudio.isLoading := false;
       ImageStudio.error := None; ImageStudio.isApiReady := true |} in
  let chat :=
    {| Chatbot.chat := Some {| chatModel := "gemini-2.5-flash" |};
       Chatbot.messages := []; Chatbot.currentMessage := "   ";
       Chatbot.isLoading := false; Chatbot.isApiReady := true |} in
  isBlank "   " = true
  /\ ImageStudio.handleSubmit Samples.someKey Samples.someBrowser studio
       Samples.rateLimited = ([], studio)
  /\ Chatbot.handleSendMessage chat Samples.rateLimited = ([], chat).
Proof.
  cbv zeta. split; [reflexivity | ].
  destruct (blank_prompt_is_ignored "   " eq_refl) as [Hstudio Hchat].
  split; [apply Hstudio | apply Hchat]; reflexivity.
Defined.

(* ================================================================== *)
(** ** Further properties of the error handler                         *)
(* ================================================================== *)

Lemma ErrorType_value_inj (t t' : ErrorType) :
  ErrorType_value t = ErrorType_value t' -> t = t'.
Proof.
  destruct t, t'; simpl; intros H; solve [reflexivity | discriminate H].
Qed.

Lemma strictEqString_value (t t' : ErrorType) :
  strictEqString (JsString (ErrorType_value t)) (ErrorType_value t') = true <-> t' = t.
Proof.
  unfold strictEqString. rewrite String.eqb_eq. split.
  - intros H. symmetry. now apply ErrorType_value_inj.
  - now intros ->.
Qed.

(** The category of a raw error depends on its message only through the
    lower-cased text: two raw errors whose messages differ in letter case
    alone get the same type. *)
Theorem classification_ignores_letter_case (v1 v2 : JsValue) :
  isParsedError v1 = false ->
  isParsedError v2 = false ->
  toLowerCase (errorMessageOf v1) = toLowerCase (errorMessageOf v2) ->
  getProperty "type" (parseApiError v1) = getProperty "type" (parseApiError v2).
Proof.
  intros H1 H2 Heq. unfold parseApiError. rewrite H1, H2. cbv zeta.
  rewrite Heq.
  repeat match goal with
         | |- context [if ?c then _ else _] => destruct c
         end; reflexivity.
Qed.

Lemma classification_ignores_letter_case_witness :
  getProperty "type" (parseApiError (newError "RATE LIMIT reached"))
  = getProperty "type" (parseApiError (JsString "Rate Limit Reached"))
  /\ getProperty "type" (parseApiError (JsString "Rate Limit Reached"))
     = JsString "RATE_LIMIT_EXCEEDED".
Proof.
  split; [ | reflexivity].
  apply classification_ignores_letter_case; reflexivity.
Defined.

(** What createApiError builds is read back unchanged: parseApiError
    passes it through, getUserFriendlyErrorMessage returns its message
    argument, and isErrorType accepts the type it was built with and no
    other. *)
Theorem createApiError_is_read_back
  (t : ErrorType) (message userFriendlyMessage : string) :
  let e := createApiError t message userFriendlyMessage in
  parseApiError e = e
  /\ getUserFriendlyErrorMessage e = JsString userFriendlyMessage
  /\ errorMessageOf e = message
  /\ forall t', isErrorType e t' = true <-> t' = t.
Proof.
  cbv zeta. repeat split; try reflexivity.
  - intros H. now apply (strictEqString_value t t').
  - intros ->. now apply (strictEqString_value t t).
Qed.

(** A value without a [type] field has exactly one error type: isErrorType
    holds for the category parseApiError gives it and for no other. *)
Theorem raw_value_has_exactly_one_type (v : JsValue) :
  hasProperty "type" v = false ->
  exists t,
    getProperty "type" (parseApiError v) = JsString (ErrorType_value t)
    /\ forall t', isErrorType v t' = true <-> t' = t.
Proof.
  intros Hno.
  destruct (parseApiError_fresh v (no_type_not_parsed v Hno))
    as (t & u & Heq & _).
  exists t. unfold isErrorType. rewrite Hno, andb_false_r, Heq.
  split; [reflexivity | ].
  intros t'. apply strictEqString_value.
Qed.

Lemma raw_value_has_exactly_one_type_witness :
  hasProperty "type" (JsNumber 503) = false
  /\ isErrorType (JsNumber 503) SERVICE_UNAVAILABLE = true
  /\ exists t,
       getProperty "type" (parseApiError (JsNumber 503)) = JsString (ErrorType_value t)
       /\ forall t', isErrorType (JsNumber 503) t' = true <-> t' = t.
Proof.
  split; [reflexivity | split; [reflexivity | ]].
  apply raw_value_has_exactly_one_type. reflexivity.
Defined.

(** Every category but UNKNOWN_ERROR has one fixed user-facing text: two
    raw errors classified alike get the same message, whatever their own
    messages say. *)
Theorem category_fixes_user_message
  (v1 v2 : JsValue) (t : ErrorType) (u1 u2 : string) :
  isParsedError v1 = false ->
  isParsedError v2 = false ->
  parseApiError v1 = ApiError t (errorMessageOf v1) u1 ->
  parseApiError v2 = ApiError t (errorMessageOf v2) u2 ->
  t <> UNKNOWN_ERROR ->
  u1 = u2.
Proof.
  intros H1 H2. unfold parseApiError. rewrite H1, H2. cbv zeta.
  unfold ApiError.
  repeat match goal with
         | |- context [if ?c then _ else _] => destruct c
         end;
    intros E1 E2 Hunk;
    injection E1 as Ht1 Hu1; injection E2 as Ht2 Hu2;
    destruct t; try discriminate Ht1; try discriminate Ht2;
    try (now elim Hunk); congruence.
Qed.

Lemma category_fixes_user_message_witness :
  exists u1 u2,
    parseApiError (newError "fetch failed") = ApiError NETWORK_ERROR "fetch failed" u1
    /\ parseApiError (JsString "connection reset")
         = ApiError NETWORK_ERROR "connection reset" u2
    /\ u1 = u2.
Proof.
  do 2 eexists. split; [reflexivity | split; [reflexivity | ]].
  apply (category_fixes_user_message (newError "fetch failed")
           (JsString "connection reset") NETWORK_ERROR);
    [reflexivity | reflexivity | reflexivity | reflexivity | discriminate].
Defined.

(** getUserFriendlyErrorMessage returns the user-facing text of the
    classified error, except for a value that brings a
    [userFriendlyMessage] without a [type]. *)
Theorem friendly_message_is_that_of_the_classified_error (v : JsValue) :
  (hasProperty "userFriendlyMessage" v = true -> hasProperty "type" v = true) ->
  getUserFriendlyErrorMessage v = getProperty "userFriendlyMessage" (parseApiError v).
Proof.
  intros H. unfold getUserFriendlyErrorMessage.
  destruct (truthy v && String.eqb (typeof v) "object"
            && hasProperty "userFriendlyMessage" v) eqn:Hg.
  - apply andb_true_iff in Hg as [Hobj Hu].
    unfold parseApiError, isParsedError.
    now rewrite Hobj, (H Hu), Hu.
  - reflexivity.
Qed.

Lemma friendly_message_is_that_of_the_classified_error_witness :
  let e := createApiError QUOTA_EXCEEDED "quota exceeded for project" "The quota is used up." in
  hasProperty "userFriendlyMessage" e = true
  /\ getUserFriendlyErrorMessage e = getProperty "userFriendlyMessage" (parseApiError e).
Proof.
  split; [reflexivity | ].
  apply friendly_message_is_that_of_the_classified_error.
  intros _. reflexivity.
Defined.

(* ================================================================== *)
(** ** Further properties of the response parser                       *)
(* ================================================================== *)

Lemma forParts_some (ps : list Part) (uri : string) :
  forParts ps = Some uri ->
  exists before part after inline,
    ps = (before ++ part :: after)%list
    /\ (forall p, In p before -> inlineData p = None)
    /\ inlineData part = Some inline
    /\ uri = "data:" ++ hole (mimeType inline) ++ ";base64," ++ hole (data inline).
Proof.
  induction ps as [|p ps IH]; simpl; [discriminate | ].
  destruct (inlineData p) as [inline|] eqn:Hp.
  - intros [= <-]. exists [], p, ps, inline.
    repeat split; try assumption. intros q [].
  - intros H. destruct (IH H) as (before & part & after & inline & -> & Hb & Hi & ->).
    exists (p :: before), part, after, inline. repeat split; try assumption.
    intros q [<-|Hq]; [assumption | now apply Hb].
Qed.

(** The parser throws on every path but the first. *)
Lemma processImageResponse_throws (response : GenerateContentResponse) :
  forParts (partsOrEmpty response) = None ->
  exists message,
    processImageResponse response = Throw (newError message)
    /\ message <> EmptyString.
Proof.
  intros Hnone. unfold processImageResponse. rewrite Hnone.
  repeat match goal with
         | |- context [if ?c then _ else _] => destruct c
         end;
    eexists; (split; [reflexivity | ]); cbn [append]; discriminate.
Qed.

(** The parser succeeds only through the first inline-data part of the
    first candidate: a returned string is the data URI of that part, with a
    missing mime type or payload written [undefined]. *)
Theorem success_comes_from_the_first_inline_part
  (response : GenerateContentResponse) (uri : string) :
  processImageResponse response = Ok uri ->
  exists before part after inline,
    partsOrEmpty response = (before ++ part :: after)%list
    /\ (forall p, In p before -> inlineData p = None)
    /\ inlineData part = Some inline
    /\ uri = "data:" ++ hole (mimeType inline) ++ ";base64," ++ hole (data inline)
    /\ startsWith uri "data:" = true.
Proof.
  intros Hok.
  destruct (forParts (partsOrEmpty response)) as [u|] eqn:Hparts.
  - assert (u = uri) as ->.
    { unfold processImageResponse in Hok. rewrite Hparts in Hok. congruence. }
    destruct (forParts_some _ _ Hparts)
      as (before & part & after & inline & Hps & Hb & Hi & Hu).
    exists before, part, after, inline. repeat split; try assumption.
    rewrite Hu. apply startsWith_app.
  - destruct (processImageResponse_throws response Hparts) as (m & Hm & _).
    congruence.
Qed.

Lemma success_comes_from_the_first_inline_part_witness :
  let response :=
    {| candidates :=
         Some [ {| content :=
                     Some {| parts :=
                               Some [ {| inlineData := Some {| mimeType := None;
                                                               data := Some "AAAA" |};
                                         partText := None |} ] |};
                   finishReason := None |} ];
       promptFeedback := None;
       text := None |} in
  processImageResponse response = Ok "data:undefined;base64,AAAA"
  /\ exists before part after inline,
       partsOrEmpty response = (before ++ part :: after)%list
       /\ (forall p, In p before -> inlineData p = None)
       /\ inlineData part = Some inline
       /\ "data:undefined;base64,AAAA"
          = "data:" ++ hole (mimeType inline) ++ ";base64," ++ hole (data inline)
       /\ startsWith "data:undefined;base64,AAAA" "data:" = true.
Proof.
  cbv zeta. split; [reflexivity | ].
  apply success_comes_from_the_first_inline_part. reflexivity.
Defined.

(** Whatever the response, a failure of the parser is an Error with a
    non-empty message, and never a value parseApiError would pass
    through. *)
Theorem parser_failure_is_an_unclassified_error
  (response : GenerateContentResponse) (e : JsValue) :
  processImageResponse response = Throw e ->
  exists message,
    e = newError message
    /\ message <> EmptyString
    /\ isParsedError e = false.
Proof.
  intros Hthrow.
  destruct (forParts (partsOrEmpty response)) as [u|] eqn:Hparts.
  - unfold processImageResponse in Hthrow. rewrite Hparts in Hthrow. discriminate.
  - destruct (processImageResponse_throws response Hparts) as (m & Hm & Hne).
    exists m. rewrite Hm in Hthrow. injection Hthrow as <-.
    split; [reflexivity | split; [assumption | reflexivity]].
Qed.

Lemma parser_failure_is_an_unclassified_error_witness :
  exists e message,
    processImageResponse Samples.blockedPaymentResponse = Throw e
    /\ e = newError message
    /\ message <> EmptyString
    /\ isParsedError e = false.
Proof.
  eexists.
  destruct (parser_failure_is_an_unclassified_error Samples.blockedPaymentResponse
              _ eq_refl) as (message & He & Hne & Hraw).
  exists message. repeat split; assumption.
Defined.

(** A first candidate that stopped for a reason other than STOP and
    NO_IMAGE makes the parser cite that reason, whether or not the response
    carries text. *)
Theorem unexpected_finish_reason_is_cited
  (response : GenerateContentResponse) (reason : string) :
  (forall p, In p (partsOrEmpty response) -> inlineData p = None) ->
  truthyStr (blockReasonOf response) = false ->
  finishReasonOf response = Some reason ->
  reason <> EmptyString ->
  reason <> "STOP" ->
  reason <> "NO_IMAGE" ->
  processImageResponse response =
    Throw (newError ("Image generation stopped unexpectedly. Reason: " ++ reason ++ ".")).
Proof.
  intros Hnone Hblock Hfinish Hne Hstop Hnoimage.
  unfold processImageResponse.
  rewrite (forParts_none _ Hnone), Hblock, Hfinish.
  rewrite (truthyStr_Some _ Hne). cbn [hole].
  apply String.eqb_neq in Hstop, Hnoimage.
  now rewrite Hstop, Hnoimage.
Qed.

Lemma unexpected_finish_reason_is_cited_witness :
  processImageResponse
    {| candidates := Some [ {| content := None; finishReason := Some "MAX_TOKENS" |} ];
       promptFeedback := None;
       text := Some "partial answer" |}
  = Throw (newError "Image generation stopped unexpectedly. Reason: MAX_TOKENS.").
Proof.
  apply (unexpected_finish_reason_is_cited
           {| candidates := Some [ {| content := None; finishReason := Some "MAX_TOKENS" |} ];
              promptFeedback := None;
              text := Some "partial answer" |}
           "MAX_TOKENS");
    try reflexivity; try discriminate.
  intros p [].
Defined.

(** When the first candidate stopped normally, or gives no finish reason,
    the parser quotes the accompanying text, trimmed, if there is any, and
    otherwise reports that no image data was found. *)
Theorem normal_stop_without_image_reports_text_or_nothing
  (response : GenerateContentResponse) :
  (forall p, In p (partsOrEmpty response) -> inlineData p = None) ->
  truthyStr (blockReasonOf response) = false ->
  truthyStr (finishReasonOf response) = false
    \/ finishReasonOf response = Some "STOP" ->
  processImageResponse response =
    Throw (newError
      (match text response with
       | Some (String c t) =>
           "Model returned a text explanation instead of an image: "
             ++ dq ++ trim (String c t) ++ dq
       | _ =>
           "No image data found in response. The model may have failed to generate an image for the given prompt."
       end)).
Proof.
  intros Hnone Hblock Hfinish.
  unfold processImageResponse.
  rewrite (forParts_none _ Hnone), Hblock.
  assert (Hgo : truthyStr (finishReasonOf response)
                && negb (String.eqb (hole (finishReasonOf response)) "STOP") = false).
  { destruct Hfinish as [-> | ->]; reflexivity. }
  rewrite Hgo.
  destruct (text response) as [[|c t]|]; reflexivity.
Qed.

Lemma normal_stop_without_image_reports_text_or_nothing_witness :
  processImageResponse
    {| candidates := Some [ {| content := None; finishReason := Some "STOP" |} ];
       promptFeedback := None;
       text := Some " Sorry, no picture today. " |}
  = Throw (newError
      ("Model returned a text explanation instead of an image: "
         ++ dq ++ "Sorry, no picture today." ++ dq)).
Proof.
  apply (normal_stop_without_image_reports_text_or_nothing
           {| candidates := Some [ {| content := None; finishReason := Some "STOP" |} ];
              promptFeedback := None;
              text := Some " Sorry, no picture today. " |}).
  - intros p [].
  - reflexivity.
  - right. reflexivity.
Defined.

(* ================================================================== *)
(** ** Further properties of the generation client                     *)
(* ================================================================== *)

Section Commas.

Lemma includes_comma_cons (c : ascii) (s : string) :
  includes (String c s) "," = false ->
  Ascii.eqb c ","%char = false /\ includes s "," = false.
Proof.
  cbn [includes startsWith]. intros H.
  apply orb_false_iff in H as [Hc Hs]. rewrite andb_true_r in Hc. now split.
Qed.

Lemma cutAtComma_no_comma (s : string) :
  includes s "," = false -> cutAtComma s = (s, None).
Proof.
  induction s as [|c s IH]; intros H; cbn [cutAtComma].
  - reflexivity.
  - apply includes_comma_cons in H as [Hc Hs]. now rewrite Hc, (IH Hs).
Qed.

Lemma cutAtComma_at_comma (before after : string) :
  includes before "," = false ->
  cutAtComma (before ++ String ","%char after) = (before, Some after).
Proof.
  induction before as [|c before IH]; intros H; cbn [append cutAtComma].
  - reflexivity.
  - apply includes_comma_cons in H as [Hc Hs]. now rewrite Hc, (IH Hs).
Qed.

Lemma includes_comma_app (s t : string) :
  includes s "," = false -> includes t "," = false -> includes (s ++ t) "," = false.
Proof.
  induction s as [|c s IH]; intros Hs Ht; cbn [append].
  - exact Ht.
  - apply includes_comma_cons in Hs as [Hc Hs].
    cbn [includes startsWith]. now rewrite Hc, (IH Hs Ht).
Qed.

(** The payload of a data URL is what [split(',')[1]] takes out of it. *)
Lemma splitComma1_data_url (m d : string) :
  includes m "," = false ->
  includes d "," = false ->
  splitComma1 ("data:" ++ m ++ ";base64," ++ d) = Some d.
Proof.
  intros Hm Hd. unfold splitComma1.
  replace ("data:" ++ m ++ ";base64," ++ d)
    with (("data:" ++ m ++ ";base64") ++ String ","%char d)
    by (now rewrite !append_assoc).
  rewrite cutAtComma_at_comma.
  - cbn [snd]. now rewrite (cutAtComma_no_comma d Hd).
  - apply (includes_comma_app "data:"); [reflexivity | ].
    now apply includes_comma_app.
Qed.

End Commas.

(** With a key, generateImage and editImage each issue exactly one request,
    to gemini-2.5-flash-image asking for an image; the caller gets what
    the parser makes of the response, or the very value the request was
    rejected with. *)
Theorem generation_is_one_round_trip
  (client : GoogleGenAI) (prompt : string) (image : File) (remote : Remote) :
  let finish (r : Result GenerateContentResponse) :=
    match r with
    | Ok response => processImageResponse response
    | Throw e => Throw e
    end in
  let generate :=
    GenerateContent {| model := "gemini-2.5-flash-image";
                       contents := ContentsText prompt;
                       responseModalities := [IMAGE] |} in
  let edit :=
    GenerateContent
      {| model := "gemini-2.5-flash-image";
         contents :=
           ContentsParts
             [ InlineDataPart {| mimeType := Some (fileType image);
                                 data := splitComma1 (fileDataURL image) |};
               TextPart prompt ];
         responseModalities := [IMAGE] |} in
  generateImage (Some client) prompt remote = ([generate], finish (remote generate))
  /\ editImage (Some client) prompt image remote = ([edit], finish (remote edit)).
Proof.
  cbv zeta. unfold generateImage, editImage, fileToGenerativePart, bind, lift, ret, request.
  cbn [ensureAi app]. split.
  - destruct (remote _); reflexivity.
  - destruct (remote _); reflexivity.
Qed.

(** An image in the form the parser returns it, a data URI built from a
    mime type and a payload, is sent back by editImage as the inline part
    with that very mime type and payload. *)
Theorem data_uri_is_read_back_by_editImage
  (client : GoogleGenAI) (prompt m d : string) (remote : Remote) :
  includes m "," = false ->
  includes d "," = false ->
  fst (editImage (Some client) prompt
         {| fileType := m; fileDataURL := "data:" ++ m ++ ";base64," ++ d |}
         remote)
  = [ GenerateContent
        {| model := "gemini-2.5-flash-image";
           contents :=
             ContentsParts
               [ InlineDataPart {| mimeType := Some m; data := Some d |};
                 TextPart prompt ];
           responseModalities := [IMAGE] |} ].
Proof.
  intros Hm Hd.
  unfold editImage, fileToGenerativePart, bind, lift, ret, request.
  cbn [ensureAi app fileType fileDataURL].
  rewrite (splitComma1_data_url m d Hm Hd).
  destruct (remote _); reflexivity.
Qed.

Lemma data_uri_is_read_back_by_editImage_witness :
  fst (editImage Samples.someKey "add a hat"
         {| fileType := "image/png"; fileDataURL := "data:image/png;base64,iVBORw0KGgo=" |}
         Samples.rateLimited)
  = [ GenerateContent
        {| model := "gemini-2.5-flash-image";
           contents :=
             ContentsParts
               [ InlineDataPart {| mimeType := Some "image/png";
                                   data := Some "iVBORw0KGgo=" |};
                 TextPart "add a hat" ];
           responseModalities := [IMAGE] |} ].
Proof.
  apply (data_uri_is_read_back_by_editImage
           {| apiKey := "AIza-sample-key" |} "add a hat" "image/png" "iVBORw0KGgo=");
    reflexivity.
Defined.

(** The client exists exactly when API_KEY is a non-empty string: an empty
    key counts as no key, ensureAi then throws, and createChat with it. *)
Theorem client_exists_iff_key_is_not_empty (API_KEY : option string) :
  (isApiKeyConfigured (initAi API_KEY) = true
   <-> exists key, API_KEY = Some key /\ key <> EmptyString)
  /\ (forall key, API_KEY = Some key -> key <> EmptyString ->
        ensureAi (initAi API_KEY) = Ok {| apiKey := key |}
        /\ createChat (initAi API_KEY) = Ok {| chatModel := "gemini-2.5-flash" |})
  /\ (isApiKeyConfigured (initAi API_KEY) = false ->
        createChat (initAi API_KEY) =
          Throw (newError
            "Gemini API key not configured. Please set the API_KEY environment variable.")).
Proof.
  destruct API_KEY as [[|c key]|]; cbn.
  - split; [split; [discriminate | intros (k & [= <-] & H); now elim H] | ].
    split; [intros k [= <-] H; now elim H | reflexivity].
  - split; [split; [intros _; eexists; split; [reflexivity | discriminate] | reflexivity] | ].
    split; [intros k [= <-] _; split; reflexivity | discriminate].
  - split; [split; [discriminate | intros (k & H & _); discriminate H] | ].
    split; [intros k H; discriminate H | reflexivity].
Qed.

(* ================================================================== *)
(** ** Further properties of the studio                                *)
(* ================================================================== *)

Section Studio.

Import ImageStudio.

Lemma stringOfZ_inj (a b : Z) : stringOfZ a = stringOfZ b -> a = b.
Proof.
  unfold stringOfZ. intros H.
  assert (Hnn : forall z, Z.to_int z <> Decimal.Pos Decimal.Nil
                          /\ Z.to_int z <> Decimal.Neg Decimal.Nil).
  { intros [|p|p]; cbn; split; try discriminate;
      intros [= Hp]; now apply (Unsigned.to_uint_nonnil p). }
  apply (f_equal NilZero.int_of_string) in H.
  rewrite !NilZero.isi in H by apply Hnn.
  injection H as H. now apply DecimalZ.to_int_inj.
Qed.

(** A submission that passes the guard, with a key. *)
Lemma handleSubmit_passing
  (client : GoogleGenAI) (browser : Browser) (s : State) (remote : Remote) :
  trim (prompt s) <> EmptyString ->
  isLoading s = false ->
  isApiReady s = true ->
  handleSubmit (Some client) browser s remote =
    let userMessage :=
      {| id := stringOfZ (dateNow browser 0); role := Types.user;
         text := Some (prompt s); imageUrl := None;
         originalImageUrl := option_map (createObjectURL browser 0) (imageFile s) |} in
    let outcome :=
      match remote (submissionRequest s) with
      | Ok response => processImageResponse response
      | Throw e => Throw e
      end in
    ([submissionRequest s],
     match outcome with
     | Ok url =>
         {| messages :=
              (messages s
                 ++ [ userMessage;
                      {| id := stringOfZ (dateNow browser 1 + 1); role := Types.model;
                         text := Some ("Here's an image based on your prompt: "
                                         ++ dq ++ prompt s ++ dq)%string;
                         imageUrl := Some url;
                         originalImageUrl :=
                           option_map (createObjectURL browser 1) (imageFile s) |} ])%list;
            prompt := EmptyString; imageFile := None; isLoading := false;
            error := None; isApiReady := true |}
     | Throw err =>
         let errorMessage :=
           match err with
           | JsError _ message _ => message
           | _ => "An unknown error occurred."
           end in
         {| messages :=
              (messages s
                 ++ [ userMessage;
                      {| id := stringOfZ (dateNow browser 1 + 1); role := Types.model;
                         text := Some ("Sorry, I couldn't generate the image. Error: "
                                         ++ errorMessage)%string;
                         imageUrl := None; originalImageUrl := None |} ])%list;
            prompt := EmptyString; imageFile := None; isLoading := false;
            error := Some ("Failed to generate image: " ++ errorMessage)%string;
            isApiReady := true |}
     end).
Proof.
  intros Htrim Hload Hready. unfold handleSubmit, submissionRequest.
  rewrite Hload, Hready. cbn [truthy].
  rewrite (eqb_empty_false _ Htrim). cbn [negb orb]. cbv zeta.
  destruct (imageFile s) as [image|];
    unfold editImage, generateImage, fileToGenerativePart, bind, lift, ret, request;
    cbn [ensureAi app option_map];
    (destruct (remote _) as [response|e];
     [destruct (processImageResponse response) | ]);
    rewrite <- app_assoc; reflexivity.
Qed.

Lemma guard_passes (p : string) (loading ready : bool) :
  negb (truthy (JsString (trim p))) || loading || negb ready = false ->
  trim p <> EmptyString /\ loading = false /\ ready = true.
Proof.
  intros H. apply orb_false_iff in H as [H Hready].
  apply orb_false_iff in H as [Htrim Hload].
  cbn [truthy] in Htrim. rewrite negb_involutive in Htrim.
  apply String.eqb_neq in Htrim. apply negb_false_iff in Hready. now repeat split.
Qed.

(** With a key, a submission that passes the guard issues one request,
    the edit request when a file is attached and the generate request
    otherwise, and appends two bubbles: the prompt as typed, with a link to
    the attached file if any, then a reply of the model. The inputs are
    cleared and the pending flag is down when it ends. *)
Theorem studio_submission_appends_prompt_then_reply
  (client : GoogleGenAI) (browser : Browser) (s : State) (remote : Remote) :
  trim (prompt s) <> EmptyString ->
  isLoading s = false ->
  isApiReady s = true ->
  let out := handleSubmit (Some client) browser s remote in
  exists reply,
    fst out = [submissionRequest s]
    /\ messages (snd out) =
         (messages s
            ++ [ {| id := stringOfZ (dateNow browser 0); role := Types.user;
                    text := Some (prompt s); imageUrl := None;
                    originalImageUrl :=
                      option_map (createObjectURL browser 0) (imageFile s) |};
                 reply ])%list
    /\ role reply = Types.model
    /\ prompt (snd out) = EmptyString
    /\ imageFile (snd out) = None
    /\ isLoading (snd out) = false.
Proof.
  intros Htrim Hload Hready out. subst out.
  rewrite (handleSubmit_passing client browser s remote Htrim Hload Hready).
  cbv zeta.
  destruct (match remote (submissionRequest s) with
            | Ok response => processImageResponse response
            | Throw e => Throw e
            end);
    eexists; cbn [fst snd messages prompt imageFile isLoading];
    (split; [reflexivity | split; [reflexivity | ]]); now repeat split.
Qed.

Lemma studio_submission_appends_prompt_then_reply_witness :
  let out := handleSubmit Samples.someKey Samples.someBrowser
               Samples.studioWithPrompt Samples.rateLimited in
  List.length (fst out) = 1
  /\ List.length (messages (snd out)) = 2
  /\ exists reply,
       fst out = [submissionRequest Samples.studioWithPrompt]
       /\ messages (snd out) =
            (messages Samples.studioWithPrompt
               ++ [ {| id := stringOfZ (dateNow Samples.someBrowser 0);
                       role := Types.user;
                       text := Some (prompt Samples.studioWithPrompt);
                       imageUrl := None;
                       originalImageUrl :=
                         option_map (createObjectURL Samples.someBrowser 0)
                           (imageFile Samples.studioWithPrompt) |};
                    reply ])%list
       /\ role reply = Types.model
       /\ prompt (snd out) = EmptyString
       /\ imageFile (snd out) = None
       /\ isLoading (snd out) = false.
Proof.
  cbv zeta. split; [reflexivity | split; [reflexivity | ]].
  apply (studio_submission_appends_prompt_then_reply
           {| apiKey := "AIza-sample-key" |} Samples.someBrowser
           Samples.studioWithPrompt Samples.rateLimited);
    [discriminate | reflexivity | reflexivity].
Defined.

(** When the service answers and the parser finds an image, the reply
    carries the returned data URI and the prompt, and the error line is
    cleared. *)
Theorem studio_success_shows_the_image
  (client : GoogleGenAI) (browser : Browser) (s : State) (remote : Remote)
  (response : GenerateContentResponse) (url : string) :
  trim (prompt s) <> EmptyString ->
  isLoading s = false ->
  isApiReady s = true ->
  remote (submissionRequest s) = Ok response ->
  processImageResponse response = Ok url ->
  let out := handleSubmit (Some client) browser s remote in
  last (messages (snd out))
       {| id := EmptyString; role := Types.user; text := None; imageUrl := None;
          originalImageUrl := None |}
  = {| id := stringOfZ (dateNow browser 1 + 1); role := Types.model;
       text := Some ("Here's an image based on your prompt: "
                       ++ dq ++ prompt s ++ dq)%string;
       imageUrl := Some url;
       originalImageUrl := option_map (createObjectURL browser 1) (imageFile s) |}
  /\ error (snd out) = None.
Proof.
  intros Htrim Hload Hready Hremote Hparse out. subst out.
  rewrite (handleSubmit_passing client browser s remote Htrim Hload Hready).
  cbv zeta. rewrite Hremote, Hparse. cbn [snd messages error].
  split; [ | reflexivity].
  change [?a; ?b] with ([a] ++ [b])%list.
  now rewrite app_assoc, last_last.
Qed.

Lemma studio_success_shows_the_image_witness :
  let s := handleFileChange (Some [Samples.samplePhoto]) Samples.studioWithPrompt in
  let out := handleSubmit Samples.someKey Samples.someBrowser s Samples.imageService in
  map imageUrl (messages (snd out)) = [None; Some "data:image/png;base64,iVBORw0KGgo="]
  /\ map originalImageUrl (messages (snd out)) = [Some "blob:sample"; Some "blob:sample"]
  /\ error (snd out) = None.
Proof.
  cbv zeta. split; [reflexivity | split; [reflexivity | ]].
  apply (studio_success_shows_the_image
           {| apiKey := "AIza-sample-key" |} Samples.someBrowser
           (handleFileChange (Some [Samples.samplePhoto]) Samples.studioWithPrompt)
           Samples.imageService Samples.imageResponse
           "data:image/png;base64,iVBORw0KGgo=");
    [discriminate | reflexivity | reflexivity | reflexivity | reflexivity].
Defined.

Lemma run_cons (ai : option GoogleGenAI) (ev : Event) (rest : list Event) (s : State) :
  run ai (ev :: rest) s =
    ((fst (step ai ev s) ++ fst (run ai rest (snd (step ai ev s))))%list,
     snd (run ai rest (snd (step ai ev s)))).
Proof.
  cbn [run]. destruct (step ai ev s) as [issued s1].
  cbn [fst snd]. now destruct (run ai rest s1).
Qed.

Lemma step_grows_by_two_per_request
  (client : GoogleGenAI) (ev : Event) (s : State) :
  exists added,
    messages (snd (step (Some client) ev s)) = (messages s ++ added)%list
    /\ List.length added = 2 * List.length (fst (step (Some client) ev s)).
Proof.
  destruct ev as [value|files| |browser remote]; cbn [step].
  - exists []. cbn. now rewrite app_nil_r.
  - exists []. destruct files as [[|file files]|]; cbn; now rewrite app_nil_r.
  - exists []. cbn. now rewrite app_nil_r.
  - destruct (negb (truthy (JsString (trim (prompt s)))) || isLoading s
              || negb (isApiReady s)) eqn:Hguard.
    + exists []. unfold handleSubmit. rewrite Hguard. cbn. now rewrite app_nil_r.
    + apply guard_passes in Hguard as (Htrim & Hload & Hready).
      rewrite (handleSubmit_passing client browser s remote Htrim Hload Hready).
      cbv zeta.
      destruct (match remote (submissionRequest s) with
                | Ok response => processImageResponse response
                | Throw e => Throw e
                end);
        eexists; cbn [fst snd messages]; (split; [reflexivity | reflexivity]).
Qed.

(** With a key, over any session the transcript only grows at its end,
    and by exactly two bubbles for each request issued. *)
Theorem studio_transcript_grows_by_two_per_request
  (client : GoogleGenAI) (evs : list Event) (s : State) :
  exists added,
    messages (snd (run (Some client) evs s)) = (messages s ++ added)%list
    /\ List.length added = 2 * List.length (fst (run (Some client) evs s)).
Proof.
  revert s. induction evs as [|ev rest IH]; intros s.
  - exists []. cbn. now rewrite app_nil_r.
  - rewrite run_cons. cbn [fst snd].
    destruct (step_grows_by_two_per_request client ev s) as (added1 & Hm1 & Hl1).
    destruct (IH (snd (step (Some client) ev s))) as (added2 & Hm2 & Hl2).
    exists (added1 ++ added2)%list. split.
    + now rewrite Hm2, Hm1, app_assoc.
    + rewrite !length_app. lia.
Qed.

Lemma closed_step (ai : option GoogleGenAI) (ev : Event) (s : State) :
  isApiReady s = false ->
  fst (step ai ev s) = []
  /\ messages (snd (step ai ev s)) = messages s
  /\ isApiReady (snd (step ai ev s)) = false.
Proof.
  intros Hclosed. destruct ev as [value|files| |browser remote]; cbn [step].
  - now repeat split.
  - destruct files as [[|file files]|]; now repeat split.
  - now repeat split.
  - unfold handleSubmit. rewrite Hclosed. cbn [negb]. rewrite orb_true_r.
    now repeat split.
Qed.

Lemma closed_run (ai : option GoogleGenAI) (evs : list Event) (s : State) :
  isApiReady s = false ->
  fst (run ai evs s) = []
  /\ messages (snd (run ai evs s)) = messages s
  /\ isApiReady (snd (run ai evs s)) = false.
Proof.
  revert s. induction evs as [|ev rest IH]; intros s Hclosed.
  - now repeat split.
  - rewrite run_cons. cbn [fst snd].
    destruct (closed_step ai ev s Hclosed) as (Hi & Hm & Hc).
    destruct (IH _ Hc) as (Hi' & Hm' & Hc').
    rewrite Hi, Hi', Hm', Hm. now repeat split.
Qed.

(** Mounted without a key, the studio shows the configuration notice and
    stays shut: whatever the user then types, attaches or submits, no
    request is issued and the transcript does not change. *)
Theorem studio_without_key_never_issues_a_request (evs : list Event) (s : State) :
  let out := run None evs (onMount None s) in
  fst out = []
  /\ map text (messages (snd out)) =
       [ Some "Configuration needed. Please set the API_KEY environment variable to use the Image Studio." ]
  /\ isApiReady (snd out) = false.
Proof.
  cbv zeta.
  destruct (closed_run None evs (onMount None s) eq_refl) as (Hi & Hm & Hc).
  rewrite Hi, Hm, Hc. now repeat split.
Qed.

(** A submission made while a request is pending, or while the studio is
    not ready, is dropped: no request, no change of state. *)
Theorem studio_drops_submission_while_pending_or_closed
  (ai : option GoogleGenAI) (browser : Browser) (s : State) (remote : Remote) :
  isLoading s = true \/ isApiReady s = false ->
  handleSubmit ai browser s remote = ([], s).
Proof.
  intros [H|H]; unfold handleSubmit; rewrite H; cbn [negb];
    now rewrite ?orb_true_r.
Qed.

Lemma studio_drops_submission_while_pending_or_closed_witness :
  let pending :=
    {| messages := []; prompt := "a dog"; imageFile := None; isLoading := true;
       error := None; isApiReady := true |} in
  handleSubmit Samples.someKey Samples.someBrowser pending Samples.imageService
  = ([], pending).
Proof.
  cbv zeta. apply studio_drops_submission_while_pending_or_closed.
  left. reflexivity.
Defined.

(** The two bubbles a submission appends have different ids, as long as
    the clock does not run backwards between the two readings. *)
Theorem studio_message_ids_differ
  (client : GoogleGenAI) (browser : Browser) (s : State) (remote : Remote) :
  trim (prompt s) <> EmptyString ->
  isLoading s = false ->
  isApiReady s = true ->
  (dateNow browser 0 <= dateNow browser 1)%Z ->
  exists mine reply,
    messages (snd (handleSubmit (Some client) browser s remote))
      = (messages s ++ [mine; reply])%list
    /\ id mine <> id reply.
Proof.
  intros Htrim Hload Hready Hclock.
  rewrite (handleSubmit_passing client browser s remote Htrim Hload Hready).
  cbv zeta.
  destruct (match remote (submissionRequest s) with
            | Ok response => processImageResponse response
            | Throw e => Throw e
            end);
    do 2 eexists; cbn [snd messages]; (split; [reflexivity | ]);
    cbn [id]; intros Hid; apply stringOfZ_inj in Hid; lia.
Qed.

Lemma studio_message_ids_differ_witness :
  map id (messages (snd (handleSubmit Samples.someKey Samples.someBrowser
                           Samples.studioWithPrompt Samples.imageService)))
    = ["1700000000000"; "1700000000002"]
  /\ exists mine reply,
       messages (snd (handleSubmit Samples.someKey Samples.someBrowser
                        Samples.studioWithPrompt Samples.imageService))
         = (messages Samples.studioWithPrompt ++ [mine; reply])%list
       /\ id mine <> id reply.
Proof.
  split; [reflexivity | ].
  apply (studio_message_ids_differ {| apiKey := "AIza-sample-key" |});
    [discriminate | reflexivity | reflexivity | ].
  cbn. lia.
Defined.

Lemma replaceWhiteSpace_clean (t : string) :
  hasWhiteSpace (replaceWhiteSpace t) = false.
Proof.
  induction t as [|c t IH]; cbn [replaceWhiteSpace hasWhiteSpace].
  - reflexivity.
  - rewrite IH, orb_false_r. destruct (isWhiteSpace c) eqn:Hc; [reflexivity | exact Hc].
Qed.

Lemma replaceWhiteSpace_length (t : string) :
  String.length (replaceWhiteSpace t) = String.length t.
Proof.
  induction t as [|c t IH]; cbn; [reflexivity | now rewrite IH].
Qed.

(** The file name offered for a download ends in [.png]; its stem is never
    empty and holds no white space: it is the text of the bubble with each
    white-space character turned into an underscore, or [generated_image]
    when the bubble has no text. *)
Theorem download_filename_is_clean (message : ImageStudioMessage) :
  exists stem,
    downloadFilename message = stem ++ ".png"
    /\ stem <> EmptyString
    /\ hasWhiteSpace stem = false
    /\ (forall c t, text message = Some (String c t) ->
          stem = replaceWhiteSpace (String c t)
          /\ String.length stem = String.length (String c t))
    /\ (text message = None \/ text message = Some EmptyString ->
          stem = "generated_image").
Proof.
  unfold downloadFilename. cbv zeta.
  destruct (text message) as [[|c t]|]; cbn [option_map truthyStr replaceWhiteSpace
                                               String.eqb negb hole];
    eexists; (split; [reflexivity | ]).
  - repeat split; try discriminate; try (intros ? ? H; discriminate H).
  - split; [discriminate | ]. split.
    + apply (replaceWhiteSpace_clean (String c t)).
    + split.
      * intros c' t' [= -> ->]. split; [reflexivity | ].
        apply (replaceWhiteSpace_length (String c' t')).
      * intros [H|H]; discriminate H.
  - repeat split; try discriminate; try (intros ? ? H; discriminate H).
Qed.

End Studio.

(* ================================================================== *)
(** ** Further properties of the chat                                  *)
(* ================================================================== *)

Section Chat.

Import Chatbot.

(** A message that passes the guard. *)
Lemma handleSendMessage_passing (s : State) (session : Chat) (remote : Remote) :
  chat s = Some session ->
  trim (currentMessage s) <> EmptyString ->
  isLoading s = false ->
  isApiReady s = true ->
  handleSendMessage s remote =
    ([SendMessage session (currentMessage s)],
     {| chat := Some session;
        messages :=
          (messages s
             ++ [ {| role := Types.user; text := Some (currentMessage s) |};
                  {| role := Types.model;
                     text :=
                       match remote (SendMessage session (currentMessage s)) with
                       | Ok response => GeminiService.text response
                       | Throw e =>
                           Some (failureMarker ++ " "
                                   ++ toString (getUserFriendlyErrorMessage e))%string
                       end |} ])%list;
        currentMessage := EmptyString;
        isLoading := false;
        isApiReady := true |}).
Proof.
  intros Hchat Htrim Hload Hready.
  unfold handleSendMessage, request.
  rewrite Hchat, Hload, Hready. cbn [truthy].
  rewrite (eqb_empty_false _ Htrim). cbn [negb orb].
  destruct (remote _); rewrite <- app_assoc; reflexivity.
Qed.

Lemma chat_guard_passes (s : State) :
  negb (truthy (JsString (trim (currentMessage s)))) || isLoading s
  || negb (match chat s with Some _ => true | None => false end)
  || negb (isApiReady s) = false ->
  exists session,
    chat s = Some session
    /\ trim (currentMessage s) <> EmptyString
    /\ isLoading s = false
    /\ isApiReady s = true.
Proof.
  intros H. apply orb_false_iff in H as [H Hready].
  apply orb_false_iff in H as [H Hchat].
  apply orb_false_iff in H as [Htrim Hload].
  cbn [truthy] in Htrim. rewrite negb_involutive in Htrim.
  apply String.eqb_neq in Htrim. apply negb_false_iff in Hready.
  destruct (chat s) as [session|]; [ | discriminate Hchat].
  exists session. now repeat split.
Qed.

(** A message that passes the guard is sent once, as typed, to the
    session; the transcript gets the message and then the text of the
    reply, the input is cleared and the pending flag is down. *)
Theorem chat_reply_is_appended_after_the_message
  (s : State) (session : Chat) (remote : Remote)
  (response : GenerateContentResponse) :
  chat s = Some session ->
  trim (currentMessage s) <> EmptyString ->
  isLoading s = false ->
  isApiReady s = true ->
  remote (SendMessage session (currentMessage s)) = Ok response ->
  handleSendMessage s remote =
    ([SendMessage session (currentMessage s)],
     {| chat := Some session;
        messages :=
          (messages s
             ++ [ {| role := Types.user; text := Some (currentMessage s) |};
                  {| role := Types.model; text := GeminiService.text response |} ])%list;
        currentMessage := EmptyString;
        isLoading := false;
        isApiReady := true |}).
Proof.
  intros Hchat Htrim Hload Hready Hremote.
  rewrite (handleSendMessage_passing s session remote Hchat Htrim Hload Hready).
  now rewrite Hremote.
Qed.

Lemma chat_reply_is_appended_after_the_message_witness :
  let s :=
    {| chat := Some {| chatModel := "gemini-2.5-flash" |};
       messages := []; currentMessage := " hello "; isLoading := false;
       isApiReady := true |} in
  let remote : Remote :=
    fun _ => Ok {| candidates := None; promptFeedback := None; GeminiService.text := Some "Hi there!" |} in
  handleSendMessage s remote =
    ([SendMessage {| chatModel := "gemini-2.5-flash" |} " hello "],
     {| chat := Some {| chatModel := "gemini-2.5-flash" |};
        messages := [ {| role := Types.user; text := Some " hello " |};
                      {| role := Types.model; text := Some "Hi there!" |} ];
        currentMessage := EmptyString;
        isLoading := false;
        isApiReady := true |}).
Proof.
  cbv zeta.
  apply (chat_reply_is_appended_after_the_message
           {| chat := Some {| chatModel := "gemini-2.5-flash" |};
              messages := []; currentMessage := " hello "; isLoading := false;
              isApiReady := true |}
           {| chatModel := "gemini-2.5-flash" |}
           (fun _ => Ok {| candidates := None; promptFeedback := None;
                           GeminiService.text := Some "Hi there!" |})
           {| candidates := None; promptFeedback := None; GeminiService.text := Some "Hi there!" |});
    [reflexivity | discriminate | reflexivity | reflexivity | reflexivity].
Defined.

Lemma chat_run_cons (ev : Event) (rest : list Event) (s : State) :
  run (ev :: rest) s =
    ((fst (step ev s) ++ fst (run rest (snd (step ev s))))%list,
     snd (run rest (snd (step ev s)))).
Proof.
  cbn [run]. destruct (step ev s) as [issued s1].
  cbn [fst snd]. now destruct (run rest s1).
Qed.

Lemma chat_step_grows_by_two_per_request (ev : Event) (s : State) :
  exists added,
    messages (snd (step ev s)) = (messages s ++ added)%list
    /\ List.length added = 2 * List.length (fst (step ev s)).
Proof.
  destruct ev as [value|remote]; cbn [step].
  - exists []. cbn. now rewrite app_nil_r.
  - destruct (negb (truthy (JsString (trim (currentMessage s)))) || isLoading s
              || negb (match chat s with Some _ => true | None => false end)
              || negb (isApiReady s)) eqn:Hguard.
    + exists []. unfold handleSendMessage. rewrite Hguard. cbn. now rewrite app_nil_r.
    + apply chat_guard_passes in Hguard as (session & Hchat & Htrim & Hload & Hready).
      rewrite (handleSendMessage_passing s session remote Hchat Htrim Hload Hready).
      eexists. cbn [fst snd messages]. split; reflexivity.
Qed.

(** Over any session of the chat, the transcript only grows at its end,
    and by exactly two bubbles for each message sent to the service. *)
Theorem chat_transcript_grows_by_two_per_request (evs : list Event) (s : State) :
  exists added,
    messages (snd (run evs s)) = (messages s ++ added)%list
    /\ List.length added = 2 * List.length (fst (run evs s)).
Proof.
  revert s. induction evs as [|ev rest IH]; intros s.
  - exists []. cbn. now rewrite app_nil_r.
  - rewrite chat_run_cons. cbn [fst snd].
    destruct (chat_step_grows_by_two_per_request ev s) as (added1 & Hm1 & Hl1).
    destruct (IH (snd (step ev s))) as (added2 & Hm2 & Hl2).
    exists (added1 ++ added2)%list. split.
    + now rewrite Hm2, Hm1, app_assoc.
    + rewrite !length_app. lia.
Qed.

(** A message sent while a reply is pending, without a session, or while
    the chat is not ready, is dropped: no request, no change of state. *)
Theorem chat_drops_message_while_pending_or_closed (s : State) (remote : Remote) :
  isLoading s = true \/ chat s = None \/ isApiReady s = false ->
  handleSendMessage s remote = ([], s).
Proof.
  intros [H|[H|H]]; unfold handleSendMessage; rewrite H; cbn [negb];
    now rewrite ?orb_true_r.
Qed.

Lemma chat_drops_message_while_pending_or_closed_witness :
  handleSendMessage (setCurrentMessage "hello" initialState) Samples.imageService
  = ([], setCurrentMessage "hello" initialState).
Proof.
  apply chat_drops_message_while_pending_or_closed.
  right. left. reflexivity.
Defined.

Lemma chat_closed_step (ev : Event) (s : State) :
  isApiReady s = false ->
  fst (step ev s) = []
  /\ messages (snd (step ev s)) = messages s
  /\ isApiReady (snd (step ev s)) = false.
Proof.
  intros Hclosed. destruct ev as [value|remote]; cbn [step].
  - now repeat split.
  - unfold handleSendMessage. rewrite Hclosed. cbn [negb]. rewrite orb_true_r.
    now repeat split.
Qed.

Lemma chat_closed_run (evs : list Event) (s : State) :
  isApiReady s = false ->
  fst (run evs s) = []
  /\ messages (snd (run evs s)) = messages s
  /\ isApiReady (snd (run evs s)) = false.
Proof.
  revert s. induction evs as [|ev rest IH]; intros s Hclosed.
  - now repeat split.
  - rewrite chat_run_cons. cbn [fst snd].
    destruct (chat_closed_step ev s Hclosed) as (Hi & Hm & Hc).
    destruct (IH _ Hc) as (Hi' & Hm' & Hc').
    rewrite Hi, Hi', Hm', Hm. now repeat split.
Qed.

(** Mounted without a key, the chat shows the configuration notice and
    stays shut: nothing typed or sent afterwards issues a request or
    changes the transcript. *)
Theorem chat_without_key_never_issues_a_request (evs : list Event) (s : State) :
  let out := run evs (onMount None s) in
  fst out = []
  /\ map text (messages (snd out)) =
       [ Some "Configuration needed. Please set the API_KEY environment variable to use the chatbot." ]
  /\ isApiReady (snd out) = false.
Proof.
  cbv zeta.
  destruct (chat_closed_run evs (onMount None s) eq_refl) as (Hi & Hm & Hc).
  rewrite Hi, Hm, Hc. now repeat split.
Qed.

(** Mounted with a key from its initial state, the chat greets the user
    and holds a session on gemini-2.5-flash; typing a message that is not
    blank and sending it issues exactly one request, for that session and
    with the message as typed. *)
Theorem chat_with_key_sends_what_is_typed
  (client : GoogleGenAI) (typed : string) (remote : Remote) :
  trim typed <> EmptyString ->
  map text (messages (onMount (Some client) initialState))
    = [ Some "Hello! I'm Gemini. How can I help you today?" ]
  /\ fst (run [ChangeMessage typed; Send remote] (onMount (Some client) initialState))
     = [ SendMessage {| chatModel := "gemini-2.5-flash" |} typed ].
Proof.
  intros Htrim. split; [reflexivity | ].
  rewrite chat_run_cons. cbn [step fst snd]. rewrite chat_run_cons. cbn [step run fst snd].
  rewrite (handleSendMessage_passing _ {| chatModel := "gemini-2.5-flash" |} remote);
    [reflexivity | reflexivity | exact Htrim | reflexivity | reflexivity].
Qed.

Lemma chat_with_key_sends_what_is_typed_witness :
  fst (run [ChangeMessage "What is a data URI?"; Send Samples.rateLimited]
         (onMount Samples.someKey initialState))
  = [ SendMessage {| chatModel := "gemini-2.5-flash" |} "What is a data URI?" ].
Proof.
  apply (chat_with_key_sends_what_is_typed {| apiKey := "AIza-sample-key" |}).
  discriminate.
Defined.

End Chat.

(* ================================================================== *)
(** ** Properties of the two-panel studio                              *)
(* ================================================================== *)

Section Panel.

Import ImageStudioPanel.

(** An action with a blank prompt, or an edit with no file chosen, is
    turned down on the spot: no request is issued, the error line names
    what is missing, and nothing else changes (a result shown before
    stays). *)
Theorem panel_rejects_invalid_input
  (ai : option GoogleGenAI) (action : Action) (s : State) (remote : Remote) :
  trim (prompt s) = EmptyString \/ (action = edit /\ imageFile s = None) ->
  handleAction ai action s remote =
    ([], {| prompt := prompt s; imageFile := imageFile s; imageUrl := imageUrl s;
            resultImageUrl := resultImageUrl s; isLoading := isLoading s;
            error := Some (if String.eqb (trim (prompt s)) EmptyString
                           then "Please enter a prompt."
                           else "Please upload an image to edit.") |}).
Proof.
  intros H. unfold handleAction. cbn [truthy].
  destruct (String.eqb (trim (prompt s)) EmptyString) eqn:Hblank; cbn [negb].
  - reflexivity.
  - destruct H as [H|[-> ->]].
    + rewrite H in Hblank. discriminate Hblank.
    + reflexivity.
Qed.

Lemma panel_rejects_invalid_input_witness :
  let s :=
    {| prompt := "make it blue"; imageFile := None; imageUrl := None;
       resultImageUrl := Some "data:image/png;base64,AAAA"; isLoading := false;
       error := None |} in
  fst (handleAction Samples.someKey edit s Samples.imageService) = []
  /\ error (snd (handleAction Samples.someKey edit s Samples.imageService))
     = Some "Please upload an image to edit."
  /\ resultImageUrl (snd (handleAction Samples.someKey edit s Samples.imageService))
     = Some "data:image/png;base64,AAAA".
Proof.
  cbv zeta.
  rewrite (panel_rejects_invalid_input Samples.someKey edit
             {| prompt := "make it blue"; imageFile := None; imageUrl := None;
                resultImageUrl := Some "data:image/png;base64,AAAA";
                isLoading := false; error := None |}
             Samples.imageService)
    by (right; split; reflexivity).
  repeat split.
Defined.

(** An action that passes validation issues at most one request and ends
    with the pending flag down and exactly one of the two outputs set: the
    new image with no error, or an error with no image. *)
Theorem panel_action_ends_with_image_or_error
  (ai : option GoogleGenAI) (action : Action) (s : State) (remote : Remote) :
  trim (prompt s) <> EmptyString ->
  (action = edit -> imageFile s <> None) ->
  let out := handleAction ai action s remote in
  List.length (fst out) <= 1
  /\ isLoading (snd out) = false
  /\ prompt (snd out) = prompt s
  /\ ((exists url, resultImageUrl (snd out) = Some url /\ error (snd out) = None)
      \/ (exists message, error (snd out) = Some message
                          /\ resultImageUrl (snd out) = None)).
Proof.
  intros Htrim Hfile out. subst out. unfold handleAction. cbn [truthy].
  rewrite (eqb_empty_false _ Htrim). cbn [negb].
  destruct action, (imageFile s) as [image|] eqn:Himage;
    try (exfalso; now apply Hfile);
    unfold generateImage, editImage, fileToGenerativePart, bind, lift, ret, request;
    destruct ai as [client|]; cbn [ensureAi app];
    try (destruct (remote _) as [response|e];
         [destruct (processImageResponse response) | ]);
    cbn [fst snd List.length isLoading prompt resultImageUrl error];
    (split; [lia | split; [reflexivity | split; [reflexivity | ]]]);
    solve [left; eexists; split; reflexivity | right; eexists; split; reflexivity].
Qed.

Lemma panel_action_ends_with_image_or_error_witness :
  let s :=
    {| prompt := "a lighthouse at dusk"; imageFile := None; imageUrl := None;
       resultImageUrl := None; isLoading := false; error := Some "Please enter a prompt." |} in
  let out := handleAction Samples.someKey generate s Samples.imageService in
  resultImageUrl (snd out) = Some "data:image/png;base64,iVBORw0KGgo="
  /\ List.length (fst out) <= 1
  /\ isLoading (snd out) = false
  /\ prompt (snd out) = prompt s
  /\ ((exists url, resultImageUrl (snd out) = Some url /\ error (snd out) = None)
      \/ (exists message, error (snd out) = Some message
                          /\ resultImageUrl (snd out) = None)).
Proof.
  cbv zeta. split; [reflexivity | ].
  apply (panel_action_ends_with_image_or_error Samples.someKey generate
           {| prompt := "a lighthouse at dusk"; imageFile := None; imageUrl := None;
              resultImageUrl := None; isLoading := false;
              error := Some "Please enter a prompt." |}
           Samples.imageService);
    [discriminate | intros H; discriminate H].
Defined.

(** The panel has no gate of its own for a missing key: a valid action
    then reaches ensureAi, no request is issued, and the error line shows
    the message of the Error thrown there. *)
Theorem panel_without_key_shows_configuration_error
  (action : Action) (s : State) (remote : Remote) :
  trim (prompt s) <> EmptyString ->
  (action = edit -> imageFile s <> None) ->
  handleAction None action s remote =
    ([], {| prompt := prompt s; imageFile := imageFile s; imageUrl := imageUrl s;
            resultImageUrl := None; isLoading := false;
            error := Some "Gemini API key not configured. Please set the API_KEY environment variable." |}).
Proof.
  intros Htrim Hfile. unfold handleAction. cbn [truthy].
  rewrite (eqb_empty_false _ Htrim). cbn [negb].
  destruct action, (imageFile s) as [image|] eqn:Himage;
    try (exfalso; now apply Hfile); reflexivity.
Qed.

Lemma panel_without_key_shows_configuration_error_witness :
  let s :=
    {| prompt := "a lighthouse at dusk"; imageFile := Some Samples.samplePhoto;
       imageUrl := Some "data:image/jpeg;base64,/9j/4AAQ"; resultImageUrl := None;
       isLoading := false; error := None |} in
  fst (handleAction None edit s Samples.imageService) = []
  /\ error (snd (handleAction None edit s Samples.imageService))
     = Some "Gemini API key not configured. Please set the API_KEY environment variable.".
Proof.
  cbv zeta.
  rewrite (panel_without_key_shows_configuration_error edit
             {| prompt := "a lighthouse at dusk"; imageFile := Some Samples.samplePhoto;
                imageUrl := Some "data:image/jpeg;base64,/9j/4AAQ";
                resultImageUrl := None; isLoading := false; error := None |}
             Samples.imageService);
    [split; reflexivity | discriminate | intros _; discriminate].
Defined.

End Panel.

(* ================================================================== *)
(** ** A session of the studio, from mount to request                  *)
(* ================================================================== *)

Section StudioSession.

Import ImageStudio.

(** Mounted with a key from its initial state, the studio routes by the
    attachment: a prompt submitted with a file attached goes to editImage
    with that file, one submitted after the file was removed goes to
    generateImage; and since a submission clears the attachment, the
    prompt submitted next is a plain generation again. *)
Theorem studio_routes_by_attachment
  (client : GoogleGenAI) (first second : string) (file : File) (others : list File)
  (b1 b2 : Browser) (r1 r2 : Remote) :
  trim first <> EmptyString ->
  trim second <> EmptyString ->
  let mounted := onMount (Some client) initialState in
  let editRequest :=
    GenerateContent
      {| model := "gemini-2.5-flash-image";
         contents :=
           ContentsParts
             [ InlineDataPart {| mimeType := Some (fileType file);
                                 data := splitComma1 (fileDataURL file) |};
               TextPart first ];
         responseModalities := [IMAGE] |} in
  let generateRequest (p : string) :=
    GenerateContent
      {| model := "gemini-2.5-flash-image";
         contents := ContentsText p;
         responseModalities := [IMAGE] |} in
  fst (run (Some client)
         [ChangePrompt first; FileChange (Some (file :: others)); Submit b1 r1;
          ChangePrompt second; Submit b2 r2]
         mounted)
    = [editRequest; generateRequest second]
  /\ fst (run (Some client)
            [ChangePrompt first; FileChange (Some (file :: others)); RemoveImage;
             Submit b1 r1]
            mounted)
    = [generateRequest first].
Proof.
  intros Hfirst Hsecond. cbv zeta. split.
  - rewrite !run_cons. cbn [step fst snd run].
    rewrite (handleSubmit_passing client b1 _ r1) by (try reflexivity; exact Hfirst).
    cbv zeta. cbn [fst snd app].
    match goal with
    | |- context [handleSubmit (Some client) b2 ?s r2] =>
        rewrite (handleSubmit_passing client b2 s r2)
    end.
    + cbv zeta. cbn [fst]. unfold submissionRequest.
      destruct (match r1 _ with Ok response => processImageResponse response
                           | Throw e => Throw e end); reflexivity.
    + destruct (match r1 _ with Ok response => processImageResponse response
                           | Throw e => Throw e end); exact Hsecond.
    + destruct (match r1 _ with Ok response => processImageResponse response
                           | Throw e => Throw e end); reflexivity.
    + destruct (match r1 _ with Ok response => processImageResponse response
                           | Throw e => Throw e end); reflexivity.
  - rewrite !run_cons. cbn [step fst snd run].
    rewrite (handleSubmit_passing client b1 _ r1) by (try reflexivity; exact Hfirst).
    reflexivity.
Qed.

Lemma studio_routes_by_attachment_witness :
  List.length
    (fst (run Samples.someKey
            [ChangePrompt "add a hat"; FileChange (Some [Samples.samplePhoto]);
             Submit Samples.someBrowser Samples.imageService;
             ChangePrompt "a cat"; Submit Samples.someBrowser Samples.rateLimited]
            (onMount Samples.someKey initialState))) = 2
  /\ fst (run Samples.someKey
            [ChangePrompt "add a hat"; FileChange (Some [Samples.samplePhoto]);
             RemoveImage; Submit Samples.someBrowser Samples.imageService]
            (onMount Samples.someKey initialState))
     = [ GenerateContent
           {| model := "gemini-2.5-flash-image";
              contents := ContentsText "add a hat";
              responseModalities := [IMAGE] |} ].
Proof.
  split; [reflexivity | ].
  apply (studio_routes_by_attachment {| apiKey := "AIza-sample-key" |}
           "add a hat" "a cat" Samples.samplePhoto []
           Samples.someBrowser Samples.someBrowser
           Samples.imageService Samples.rateLimited);
    discriminate.
Defined.

End StudioSession.
